(** * xl2pl: reading and writing a table from/to an Excel workbook

    A shallow embedding of [src/xl2pl.py] ([load_excel], [save_excel]) and
    the properties of its natural-language specification.

    Conventions of the embedding
    - a Python [str] is a [string] whose characters are code points below 256;
    - a Python exception is a value of [exn]; code that may raise returns
      a [result];
    - the spreadsheet library (openpyxl) and the table library (polars) are
      external: the workbook is modelled by the data the module reads from
      it or writes to it, the file system by a finite map. *)

From Stdlib Require Import Ascii String ZArith Lia.
From stdpp Require Import base option list strings gmap.

Open Scope string_scope.
Open Scope list_scope.

(** ** Python-level helpers *)

Module Py.

(** Which [raise ValueError(...)] statement of the module fired. *)
Inductive value_error :=
| LoadBadFileType      (* load_excel, line 66 *)
| LoadBadExtension     (* load_excel, line 71 *)
| LoadFileNotFound     (* load_excel, line 76 *)
| LoadBadZeroCell      (* load_excel, line 87: ValueError("test_cell") *)
| LoadBadTakeCols      (* load_excel, line 98: ValueError("take_cols") *)
| LoadBadSheet         (* load_excel, line 122: ValueError("sheet") *)
| LoadSheetFailed      (* load_excel, line 126 *)
| LoadSkipFootTooLarge (* load_excel, line 159 *)
| SaveBadPathType      (* save_excel, line 191 *)
| SaveBadExtension     (* save_excel, line 195 *)
| SaveBadPolicy.       (* save_excel, line 215 *)

Inductive runtime_error :=
| LoadOpenFailed       (* load_excel, line 111 *)
| SaveFailed.          (* save_excel, line 240 *)

(** Exceptions. [ValueErrorFrom] and [RuntimeError] carry the cause of a
    [raise ... from e]. [LibraryError] is any exception of openpyxl,
    [UserError] any exception raised by a caller-supplied callable. *)
Inductive exn :=
| ValueError (site : value_error)
| ValueErrorFrom (site : value_error) (cause : exn)
| RuntimeError (site : runtime_error) (cause : exn)
| AssertionError (sheet_name : string)
| TypeError
| IndexError
| KeyError
| LibraryError
| UserError (tag : string).

Inductive result (A : Type) :=
| Ok (a : A)
| Raise (e : exn).
Arguments Ok {A} a.
Arguments Raise {A} e.

Definition bind {A B} (r : result A) (k : A -> result B) : result B :=
  match r with
  | Ok a => k a
  | Raise e => Raise e
  end.

Notation "x <- r ;; k" := (bind r (fun x => k))
  (at level 100, r at next level, right associativity).

(** [[f(x) for x in xs]] where [f] may raise: left to right, the first
    exception wins. *)
Fixpoint mapM {A B} (f : A -> result B) (xs : list A) : result (list B) :=
  match xs with
  | [] => Ok []
  | x :: xs' => y <- f x ;; ys <- mapM f xs' ;; Ok (y :: ys)
  end.

(** [[x for x in xs if f(x)]] where [f] may raise. *)
Fixpoint filterM {A} (f : A -> result bool) (xs : list A) : result (list A) :=
  match xs with
  | [] => Ok []
  | x :: xs' =>
      b <- f x ;; ys <- filterM f xs' ;; Ok (if b then x :: ys else ys)
  end.

(** *** Strings *)

Fixpoint str_drop (n : nat) (s : string) : string :=
  match n, s with
  | O, _ => s
  | S n', String _ s' => str_drop n' s'
  | S _, EmptyString => EmptyString
  end.

(** [s.rfind(c)]; [None] stands for Python's [-1]. *)
Fixpoint rfind (c : ascii) (s : string) : option nat :=
  match s with
  | EmptyString => None
  | String a s' =>
      match rfind c s' with
      | Some i => Some (S i)
      | None => if decide (a = c) then Some 0 else None
      end
  end.

(** [s.split(sep)] for a one-character separator. *)
Fixpoint split_on (sep : ascii) (s : string) : list string :=
  match s with
  | EmptyString => [EmptyString]
  | String a s' =>
      if decide (a = sep) then EmptyString :: split_on sep s'
      else match split_on sep s' with
           | [] => [String a EmptyString]
           | h :: t => String a h :: t
           end
  end.

(** *** pathlib

    A [pathlib.Path] is kept as the string it was built from.  [path_name]
    is [Path.name] on a POSIX flavour: the last component after empty and
    ["."] components are dropped; [path_suffix] is [Path.suffix]:

      i = name.rfind('.')
      if 0 < i < len(name) - 1: return name[i:]
      else: return ''                                                   *)

Definition path_parts (p : string) : list string :=
  filter (fun c => c <> "" /\ c <> ".") (split_on "/"%char p).

Definition path_name (p : string) : string :=
  List.last (path_parts p) "".

Definition name_suffix (name : string) : string :=
  match rfind "."%char name with
  | Some i =>
      if decide (0 < i /\ i < String.length name - 1)
      then str_drop i name else ""
  | None => ""
  end.

Definition path_suffix (p : string) : string := name_suffix (path_name p).

(** *** Slicing: [xs[:k]] for an integer [k] *)

Definition slice_to {A} (xs : list A) (k : Z) : list A :=
  if (k <? 0)%Z
  then take (Z.to_nat (Z.max 0 (Z.of_nat (length xs) + k))) xs
  else take (Z.to_nat k) xs.

End Py.

Import Py.

(** ** Data shared by the reader and the writer *)

(** A cell value as openpyxl hands it over: [None] for an empty cell, a
    [str], an [int], a [bool], or any other object (a float, a date, ...),
    of which only the text of [str(v)] is kept. *)
Inductive Value :=
| VNone
| VStr (s : string)
| VInt (n : Z)
| VBool (b : bool)
| VOther (repr : string).

Global Instance Value_eq_dec : EqDecision Value.
Proof. solve_decision. Defined.

Definition is_str (v : Value) : bool :=
  match v with VStr _ => true | _ => false end.

(** ** The writer: [save_excel] *)

Module Save.

(** The [path] argument: a [str], a [pathlib.Path], or a binary stream. *)
Inductive path_arg :=
| DStr (s : string)
| DPath (p : string)
| DStream.

(** [polars.DataFrame], as far as [to_dicts] shows it. *)
Record DataFrame := { columns : list string; records : list (list Value) }.

Definition to_dicts (df : DataFrame) : list (list (string * Value)) :=
  map (fun r => zip (columns df) r) (records df).

(** A writable workbook: its sheets in order, each with the rows appended. *)
Record Sheet := { title : string; cells : list (list Value) }.
Definition Workbook := list Sheet.

Definition sheetnames (wb : Workbook) : list string := map title wb.

(** [del wb[name]] *)
Definition del_sheet (name : string) (wb : Workbook) : Workbook :=
  filter (fun sh => title sh <> name) wb.

(** [wb.create_sheet(name)] for a name that is not taken; the new sheet is
    the last one.  The title is taken to be one that openpyxl keeps as it
    is: no character that openpyxl forbids in a title, and no other sheet
    bearing it up to case.  For other titles openpyxl alters the title or
    raises; that is not modelled. *)
Definition create_sheet (name : string) (wb : Workbook) : Workbook :=
  wb ++ [{| title := name; cells := [] |}].

(** What a path holds.  [Book wb] says that [oxl.open] of the path
    succeeds and gives [wb] (openpyxl opens no name that does not end in
    one of its extensions); [Junk] is a file that it cannot open. *)
Inductive file :=
| Book (wb : Workbook)
| Junk.

(** The file system, and the paths whose file cannot be written (held open
    by another program, no access rights).  A file is identified with the
    path string of the call: two spellings of one path are two keys, and
    nothing below relates what they hold. *)
Record world := { files : gmap string file; locked : gset string }.

(** What the call does to the document, in order. *)
Inductive event :=
| EvNew                       (* oxl.workbook.Workbook(write_only=True) *)
| EvOpen (p : string)         (* oxl.open(path) *)
| EvDelete (name : string)    (* del wb[sheet_name] *)
| EvCreate (name : string)    (* wb.create_sheet(sheet_name) *)
| EvAppend (row : list Value) (* sheet.append(...) *)
| EvSave (p : string)         (* wb.save(path) *)
| EvClose.                    (* closing(...) on leaving the with block *)

Record outcome := {
  ret : result DataFrame;
  disk : gmap string file;
  trace : list event
}.

(** Lines 188-198. *)
Definition check_destination (path : path_arg) : result string :=
  p <- match path with
       | DStr s => Ok s
       | DPath p => Ok p
       | DStream => Raise (ValueError SaveBadPathType)
       end ;;
  if decide (path_suffix p = ".xlsx")
  then Raise (ValueError SaveBadExtension)
  else Ok p.

(** Lines 200-203. *)
Definition acquire (w : world) (p : string) : result (Workbook * event) :=
  match files w !! p with
  | None => Ok ([], EvNew)
  | Some (Book wb) => Ok (wb, EvOpen p)
  | Some Junk => Raise LibraryError
  end.

(** [sheet_name or "Sheet"] *)
Definition target_name (sheet_name : option string) : string :=
  match sheet_name with
  | Some s => if decide (s = "") then "Sheet" else s
  | None => "Sheet"
  end.

(** Lines 231-236: the rows appended to the new sheet. *)
Fixpoint append_rows (head_wrot : bool) (dicts : list (list (string * Value)))
    : list (list Value) :=
  match dicts with
  | [] => []
  | row :: rest =>
      (if head_wrot then [] else [map (fun kv => VStr (fst kv)) row])
      ++ map snd row :: append_rows true rest
  end.

(** Lines 209-227: [inl] goes on to the write, [inr] leaves the function. *)
Definition resolve_conflict (name if_sheet_exists : string) (wb : Workbook)
    : (Workbook * list event) + result unit :=
  if decide (name ∈ sheetnames wb) then
    if decide (if_sheet_exists ∉ ["overwrite"; "assert"; "skip"])
    then inr (Raise (ValueError SaveBadPolicy))
    else if decide (if_sheet_exists = "overwrite")
    then inl (del_sheet name wb, [EvDelete name])
    else if decide (if_sheet_exists = "assert")
    then inr (Raise (AssertionError name))
    else inr (Ok ())
  else inl (wb, []).

Definition save_excel (w : world) (path : path_arg) (df : DataFrame)
    (sheet_name : option string) (if_sheet_exists : string) : outcome :=
  match check_destination path with
  | Raise e => {| ret := Raise e; disk := files w; trace := [] |}
  | Ok p =>
    match acquire w p with
    | Raise e => {| ret := Raise e; disk := files w; trace := [] |}
    | Ok (wb, ev) =>
      let name := target_name sheet_name in
      match resolve_conflict name if_sheet_exists wb with
      | inr (Raise e) =>
          {| ret := Raise e; disk := files w; trace := [ev; EvClose] |}
      | inr (Ok _) =>
          {| ret := Ok df; disk := files w; trace := [ev; EvClose] |}
      | inl (wb1, evs) =>
          let rows := append_rows false (to_dicts df) in
          let wb2 := wb1 ++ [{| title := name; cells := rows |}] in
          let tr := ev :: evs ++ EvCreate name :: map EvAppend rows in
          if decide (p ∈ locked w)
          then {| ret := Raise (RuntimeError SaveFailed LibraryError);
                  disk := files w; trace := tr ++ [EvSave p; EvClose] |}
          else {| ret := Ok df; disk := <[p := Book wb2]> (files w);
                  trace := tr ++ [EvSave p; EvClose] |}
      end
    end
  end.

(** Does the trace touch the document? *)
Definition modifies (e : event) : bool :=
  match e with
  | EvDelete _ | EvCreate _ | EvAppend _ | EvSave _ => true
  | _ => false
  end.

End Save.

(** ** The reader: [load_excel] *)

Module Load.

(** The [file] argument: a [str], a [pathlib.Path], one of the two binary
    streams (their bytes are never looked at by the module), or any other
    object. *)
Inductive file_arg :=
| FStr (s : string)
| FPath (p : string)
| FBufferedReader (data : string)
| FBytesIO (data : string)
| FOther.

(** The [sheet] argument. *)
Inductive sheet_arg :=
| SInt (k : Z)
| SStr (name : string)
| SOther.

(** The [zero_cell] and [take_cols] arguments: omitted, a string, an
    iterable of strings, a callable (which may raise), anything else. *)
Inductive pred_arg :=
| PNone
| PStr (s : string)
| PSeq (xs : list string)
| PFun (f : Value -> result bool)
| PBad.

Record Cell := { value : Value }.
Abbreviation Row := (list Cell).

(** A read-only worksheet: its title and what [iter_rows(min_row=k)]
    yields. *)
Record Worksheet := { ws_title : string; iter_rows : Z -> list Row }.
Record ReadOnlyWorkbook := { worksheets : list Worksheet }.

Inductive stored :=
| Readable (wb : ReadOnlyWorkbook)
| Unreadable.

(** The file system (a path that holds [Unreadable], or the name of no
    file, cannot be opened by openpyxl) and the regular-expression engine:
    [re_match pat s] is [bool(re.match(pat, s))].  [Readable wb] at a
    name says that [oxl.open] of that name succeeds and gives [wb];
    openpyxl opens no name that does not end in one of its extensions,
    so it never does for the name ["<file-like>"]. *)
Record env := {
  fs : gmap string stored;
  re_match : string -> string -> result bool
}.

(** *** Argument checks (lines 57-98) *)

Definition check_source (E : env) (f : file_arg) : result string :=
  let path := match f with FStr s => Some s | _ => None end in
  match f with
  | FBufferedReader _ | FBytesIO _ => Ok "<file-like>"
  | _ =>
      match path with
      | None => Raise (ValueError LoadBadFileType)
      | Some p =>
          if decide (path_suffix p ∉ ["xlsx"; "xls"])
          then Raise (ValueError LoadBadExtension)
          else if decide (fs E !! p = None)
          then Raise (ValueError LoadFileNotFound)
          else Ok p
      end
  end.

Definition make_test_cell (zero_cell : pred_arg)
    : result (Cell -> result bool) :=
  match zero_cell with
  | PNone => Ok (fun _ => Ok true)
  | PStr z => Ok (fun cell => Ok (bool_decide (value cell = VStr z)))
  | PSeq zs => Ok (fun cell => Ok (bool_decide (value cell ∈ map VStr zs)))
  | PFun f => Ok (fun cell => f (value cell))
  | PBad => Raise (ValueError LoadBadZeroCell)
  end.

Definition make_test_cols (E : env) (take_cols : pred_arg)
    : result (Value -> result bool) :=
  match take_cols with
  | PNone => Ok (fun _ => Ok true)
  | PStr pat =>
      Ok (fun col => match col with
                     | VStr s => re_match E pat s
                     | _ => Raise TypeError
                     end)
  | PSeq cs => Ok (fun col => Ok (bool_decide (col ∈ map VStr cs)))
  | PFun f => Ok f
  | PBad => Raise (ValueError LoadBadTakeCols)
  end.

(** *** Opening the document and choosing the sheet (lines 108-128) *)

Definition open_book (E : env) (p : string) : result ReadOnlyWorkbook :=
  match fs E !! p with
  | Some (Readable wb) => Ok wb
  | _ => Raise (RuntimeError LoadOpenFailed LibraryError)
  end.

Definition resolve_sheet (book : ReadOnlyWorkbook) (sheet : sheet_arg)
    : result Worksheet :=
  match sheet with
  | SInt _ =>
      match worksheets book !! 0 with
      | Some sh => Ok sh
      | None => Raise (ValueErrorFrom LoadSheetFailed IndexError)
      end
  | SStr name =>
      match List.find (fun sh => bool_decide (ws_title sh = name))
                      (worksheets book) with
      | Some sh => Ok sh
      | None => Raise (ValueErrorFrom LoadSheetFailed KeyError)
      end
  | SOther => Raise (ValueError LoadBadSheet)
  end.

(** *** Header normalisation: [re_w.sub(" ", old).strip()] *)

(** [str.isspace] on code points below 256; [\s] matches the same set. *)
Definition is_space (c : ascii) : bool :=
  let n := nat_of_ascii c in
  (Nat.leb 9 n && Nat.leb n 13) || (Nat.leb 28 n && Nat.leb n 32)
  || Nat.eqb n 133 || Nat.eqb n 160.

(** [re.compile(r"\s+").sub(" ", s)]; [in_run] tells that the previous
    character was white space. *)
Fixpoint collapse (in_run : bool) (s : string) : string :=
  match s with
  | EmptyString => EmptyString
  | String c s' =>
      if is_space c
      then if in_run then collapse true s'
           else String " "%char (collapse true s')
      else String c (collapse false s')
  end.

Fixpoint lstrip (s : string) : string :=
  match s with
  | EmptyString => EmptyString
  | String c s' => if is_space c then lstrip s' else s
  end.

Fixpoint rstrip (s : string) : string :=
  match s with
  | EmptyString => EmptyString
  | String c s' =>
      match rstrip s' with
      | EmptyString => if is_space c then EmptyString else String c EmptyString
      | r => String c r
      end
  end.

Definition strip (s : string) : string := rstrip (lstrip s).

(** A value that is not a [str] makes [re_w.sub] raise [TypeError]. *)
Definition normalize (old : Value) : result Value :=
  match old with
  | VStr s => Ok (VStr (strip (collapse false s)))
  | _ => Raise TypeError
  end.

(** *** The scan (lines 103-106, 130-156) *)

Record state := {
  read_immediately : bool;
  head_read : bool;
  i_row : nat;
  i_col : nat;
  idxs : list nat;
  rows : list (list Value)
}.

Definition init (zero_cell : pred_arg) : state :=
  {| read_immediately := match zero_cell with PNone => true | _ => false end;
     head_read := false; i_row := 0; i_col := 0; idxs := []; rows := [] |}.

(** Lines 133-137: the first cell of the row, from index [i] on, that
    passes [test_cell]. *)
Fixpoint find_anchor (test_cell : Cell -> result bool) (i : nat) (row : Row)
    : result (option nat) :=
  match row with
  | [] => Ok None
  | cell :: rest =>
      b <- test_cell cell ;;
      if b then Ok (Some i) else find_anchor test_cell (S i) rest
  end.

(** Lines 144-146:
    [[i_col + i for i, cell in enumerate(row) if test_cols(cell.value)]];
    [i] is the index of the first cell of [row]. *)
Fixpoint header_idxs (test_cols : Value -> result bool) (i_col i : nat)
    (row : Row) : result (list nat) :=
  match row with
  | [] => Ok []
  | cell :: rest =>
      b <- test_cols (value cell) ;;
      tl <- header_idxs test_cols i_col (S i) rest ;;
      Ok (if b then (i_col + i) :: tl else tl)
  end.

(** [row[i].value], an [IndexError] out of range. *)
Definition cell_value (row : Row) (i : nat) : result Value :=
  match row !! i with
  | Some c => Ok (value c)
  | None => Raise IndexError
  end.

(** Line 148: [[row[i].value for i in idxs]]. *)
Definition select (ix : list nat) (row : Row) : result (list Value) :=
  mapM (cell_value row) ix.

Inductive ctl :=
| Continue (s : state)
| Break (s : state).

(** Lines 132-137: the anchor column after the search in this row, and
    whether the scan reads rows from here on. *)
Definition locate (test_cell : Cell -> result bool) (s : state) (row : Row)
    : result (nat * bool) :=
  if read_immediately s
  then Ok (i_col s, true)
  else a <- find_anchor test_cell 0 row ;;
       Ok match a with
          | Some i => (i, true)
          | None => (i_col s, false)
          end.

(** One turn of the [for row in ...] loop. *)
Definition scan_row (test_cell : Cell -> result bool)
    (test_cols : Value -> result bool) (s : state) (row : Row)
    : result ctl :=
  s1 <- locate test_cell s row ;;
  let '(c, found) := s1 in
  if negb found
  then Ok (Continue {| read_immediately := false; head_read := head_read s;
                       i_row := S (i_row s); i_col := c;
                       idxs := idxs s; rows := rows s |})
  else
    v <- cell_value row c ;;
    if decide (v <> VNone) then
      ix <- (if head_read s then Ok (idxs s)
             else header_idxs test_cols c 0 row) ;;
      data <- select ix row ;;
      data' <- (if head_read s then Ok data else mapM normalize data) ;;
      Ok (Continue {| read_immediately := true; head_read := true;
                      i_row := S (i_row s); i_col := c;
                      idxs := ix; rows := rows s ++ [data'] |})
    else
      Ok (Break {| read_immediately := true; head_read := head_read s;
                   i_row := S (i_row s); i_col := c;
                   idxs := idxs s; rows := rows s |}).

Fixpoint scan (test_cell : Cell -> result bool)
    (test_cols : Value -> result bool) (s : state) (rs : list Row)
    : result state :=
  match rs with
  | [] => Ok s
  | row :: rest =>
      c <- scan_row test_cell test_cols s row ;;
      match c with
      | Continue s' => scan test_cell test_cols s' rest
      | Break s' => Ok s'
      end
  end.

(** *** The footer (lines 158-163) *)

Definition footer_guard (skip_foot : option Z) (rs : list (list Value))
    : result unit :=
  match skip_foot with
  | Some n =>
      if decide (length rs < 2 /\ (n > Z.of_nat (length rs) - 1)%Z)
      then Raise (ValueError LoadSkipFootTooLarge)
      else Ok ()
  | None => Ok ()
  end.

(** The argument of [writer.writerows]. *)
Definition written (skip_foot : option Z) (rs : list (list Value))
    : list (list Value) :=
  match skip_foot with
  | None => rs
  | Some n => slice_to rs n
  end.

(** [skip_rows or 0] *)
Definition min_row (skip_rows : option Z) : Z :=
  match skip_rows with
  | Some n => n
  | None => 0%Z
  end.

(** The state of a scan that went through [rs] without leaving the loop. *)
Fixpoint passes (test_cell : Cell -> result bool)
    (test_cols : Value -> result bool) (s : state) (rs : list Row)
    : option state :=
  match rs with
  | [] => Some s
  | row :: rest =>
      match scan_row test_cell test_cols s row with
      | Ok (Continue s') => passes test_cell test_cols s' rest
      | _ => None
      end
  end.

(** The form of the rows collected from the rows [seen] of the sheet: none
    as long as no header is read; afterwards the normalised fields of the
    header row [hrow], then the fields of the rows [ds] that follow it in
    the sheet, as they were read. *)
Definition collected (s : state) (seen : list Row) : Prop :=
  (head_read s = false /\ rows s = [])
  \/ (head_read s = true /\ read_immediately s = true /\
      exists (pre : list Row) (hrow : Row) (ds : list Row)
             (raw hdr : list Value) (body : list (list Value)),
        seen = pre ++ hrow :: ds
        /\ select (idxs s) hrow = Ok raw
        /\ mapM normalize raw = Ok hdr
        /\ mapM (select (idxs s)) ds = Ok body
        /\ rows s = hdr :: body).

(** The rows collected from a sheet, before the footer is handled. *)
Definition collect (book : ReadOnlyWorkbook) (sheet : sheet_arg)
    (test_cell : Cell -> result bool) (test_cols : Value -> result bool)
    (zero_cell : pred_arg) (skip_rows : option Z)
    : result (list (list Value)) :=
  sh <- resolve_sheet book sheet ;;
  s <- scan test_cell test_cols (init zero_cell)
            (iter_rows sh (min_row skip_rows)) ;;
  Ok (rows s).

(** [load_excel], up to the rows that are serialised and handed to
    [polars.read_csv]. *)
Definition load_excel (E : env) (f : file_arg) (sheet : sheet_arg)
    (zero_cell : pred_arg) (skip_rows skip_foot : option Z)
    (take_cols : pred_arg) : result (list (list Value)) :=
  path <- check_source E f ;;
  test_cell <- make_test_cell zero_cell ;;
  test_cols <- make_test_cols E take_cols ;;
  book <- open_book E path ;;
  rs <- collect book sheet test_cell test_cols zero_cell skip_rows ;;
  _ <- footer_guard skip_foot rs ;;
  Ok (written skip_foot rs).

End Load.

(** ** The specification's wording, for comparison with the code *)

Module Spec.
Import Load.

(** "Footer trimming with [skip_foot = n] removes exactly the last [n]
    rows of the collected (header + data) set". *)
Definition spec_trim_footer {A} (n : nat) (rs : list A) : list A :=
  take (length rs - n) rs.

(** "if a footer count is supplied, it must be less than the number of
    collected rows minus one ...; violating this is an error". *)
Definition spec_footer_guard (skip_foot : option Z) (rs : list (list Value))
    : result unit :=
  match skip_foot with
  | Some n =>
      if decide (n < Z.of_nat (length rs) - 1)%Z
      then Ok ()
      else Raise (ValueError LoadSkipFootTooLarge)
  | None => Ok ()
  end.

(** "Worksheet selector: either a zero-based index or a name; resolves to
    exactly one sheet; resolution failure is an error, not a fallback". *)
Definition spec_resolve_index (book : ReadOnlyWorkbook) (k : Z) : result Worksheet :=
  if (k <? 0)%Z then Raise (ValueErrorFrom LoadSheetFailed IndexError)
  else match worksheets book !! Z.to_nat k with
       | Some sh => Ok sh
       | None => Raise (ValueErrorFrom LoadSheetFailed IndexError)
       end.

(** "the column predicate is evaluated once against every header field,
    from the anchor column to the end of the row": the indices [j], from
    the anchor column [c] on, whose header field passes the predicate. *)
Definition spec_header_idxs (test_cols : Value -> result bool) (c : nat)
    (row : Row) : result (list nat) :=
  filterM (fun j => v <- cell_value row j ;; test_cols v)
          (seq c (length row - c)).

End Spec.

(** ** What a normalised header looks like *)

Module Text.
Import Load.

(** Every white-space character of [s] is a single blank, and no two
    blanks touch; [prev] tells that the character before [s] is a blank. *)
Fixpoint single_spaced (prev : bool) (s : string) : bool :=
  match s with
  | EmptyString => true
  | String c s' =>
      if is_space c
      then Ascii.eqb c " "%char && negb prev && single_spaced true s'
      else single_spaced false s'
  end.

Definition starts_with_space (s : string) : bool :=
  match s with
  | EmptyString => false
  | String c _ => is_space c
  end.

Fixpoint ends_with_space (s : string) : bool :=
  match s with
  | EmptyString => false
  | String c s' =>
      match s' with
      | EmptyString => is_space c
      | String _ _ => ends_with_space s'
      end
  end.

(** No white space at either end, single blanks inside. *)
Definition tidy (s : string) : bool :=
  single_spaced false s && negb (starts_with_space s)
  && negb (ends_with_space s).

(** The characters of [s] that are not white space, in order. *)
Fixpoint letters (s : string) : list ascii :=
  match s with
  | EmptyString => []
  | String c s' => if is_space c then letters s' else c :: letters s'
  end.

End Text.

(** ** Auxiliary notions for the statements about the scan *)

Module ScanAux.
Import Load.

(** The state a turn of the loop ends in, left or not. *)
Definition after (c : ctl) : state :=
  match c with Continue s | Break s => s end.

(** The state after [n] more rows were passed over with no anchor found:
    only the row counter moves. *)
Definition skipped (n : nat) (s : state) : state :=
  {| read_immediately := false; head_read := head_read s;
     i_row := n + i_row s; i_col := i_col s; idxs := idxs s;
     rows := rows s |}.

(** A row of cells holding the given values. *)
Definition as_row (vs : list Value) : Row :=
  map (fun v => {| value := v |}) vs.

End ScanAux.

(** ** The check of the dependencies at import time (lines 15-21) *)

Module Startup.

(** ["polars numpy tqdm openpyxl".split()] *)
Definition dependencies : list string :=
  split_on " "%char "polars numpy tqdm openpyxl".

(** What [__import__(x, fromlist=["__version__"])] does: it gives a module,
    of which [str(module)] is kept, or raises one of the exceptions that
    line 20 catches, or raises something else. *)
Inductive imported :=
| Module_ (repr : string)
| NotImportable
| Crash (e : exn).

(** [f'{x:_<14}']: [x] filled up on the right with underscores to 14
    characters. *)
Fixpoint underscores (n : nat) : string :=
  match n with
  | O => EmptyString
  | S n' => String "_"%char (underscores n')
  end.

Definition ljust (x : string) : string :=
  (x ++ underscores (14 - String.length x))%string.

(** The line printed for a dependency that was imported. *)
Definition report (x repr : string) : string :=
  (ljust x ++ ": " ++ repr)%string.

(** How the import of the module ends: all dependencies found, or the
    [RuntimeError] of line 21 naming [x], or an exception that is not
    caught; [printed] holds the lines written so far. *)
Inductive startup :=
| Started (printed : list string)
| MissingDependency (printed : list string) (x : string)
| Crashed (printed : list string) (e : exn).

Fixpoint check_from (import_ : string -> imported) (printed : list string)
    (deps : list string) : startup :=
  match deps with
  | [] => Started printed
  | x :: rest =>
      match import_ x with
      | Module_ repr => check_from import_ (printed ++ [report x repr]) rest
      | NotImportable => MissingDependency printed x
      | Crash e => Crashed printed e
      end
  end.

Definition check_dependencies (import_ : string -> imported) : startup :=
  check_from import_ [] dependencies.

(** The line printed for [x] when it is imported. *)
Definition line (import_ : string -> imported) (x : string) : string :=
  match import_ x with
  | Module_ repr => report x repr
  | _ => EmptyString
  end.

Definition importable (import_ : string -> imported) (x : string) : Prop :=
  exists repr, import_ x = Module_ repr.

End Startup.

(** ** Properties of the helpers *)

Section PyFacts.

Lemma rfind_drop (c : ascii) (s : string) (i : nat) :
  rfind c s = Some i -> exists t, str_drop i s = String c t.
Proof.
  revert i. induction s as [|a s IH]; intros i; simpl; [discriminate|].
  destruct (rfind c s) as [j|] eqn:Hj.
  - intros [= <-]. simpl. now apply IH.
  - destruct (decide (a = c)) as [->|]; [|discriminate].
    intros [= <-]. now exists s.
Qed.

(** [Path.suffix] is empty or starts with the dot. *)
Lemma name_suffix_shape (name : string) :
  name_suffix name = "" \/ exists t, name_suffix name = String "."%char t.
Proof.
  unfold name_suffix.
  destruct (rfind "."%char name) as [i|] eqn:Hi; [|now left].
  destruct (decide _); [|now left].
  right. now apply rfind_drop.
Qed.

Lemma path_suffix_no_bare_extension (p : string) :
  path_suffix p ∉ ["xlsx"; "xls"].
Proof.
  unfold path_suffix.
  destruct (name_suffix_shape (path_name p)) as [->|[t ->]];
    rewrite !elem_of_cons, elem_of_nil; intros [?|[?|[]]]; discriminate.
Qed.

Lemma slice_to_nat {A} (xs : list A) (n : nat) :
  slice_to xs (Z.of_nat n) = take n xs.
Proof.
  unfold slice_to. destruct (Z.ltb_spec (Z.of_nat n) 0); [lia|].
  now rewrite Nat2Z.id.
Qed.

Lemma mapM_Ok_length {A B} (f : A -> result B) xs ys :
  mapM f xs = Ok ys -> length ys = length xs.
Proof.
  revert ys. induction xs as [|x xs IH]; simpl; intros ys.
  - now intros [= <-].
  - destruct (f x); simpl; [|discriminate].
    destruct (mapM f xs); simpl; [|discriminate].
    intros [= <-]. simpl. f_equal. now apply IH.
Qed.

End PyFacts.

(** ** Properties of [save_excel] *)

Module SaveFacts.
Import Save.

Lemma check_destination_xlsx (p : string) :
  path_suffix p = ".xlsx" ->
  check_destination (DStr p) = Raise (ValueError SaveBadExtension)
  /\ check_destination (DPath p) = Raise (ValueError SaveBadExtension).
Proof.
  intros H. unfold check_destination. simpl.
  destruct (decide _); [easy|contradiction].
Qed.

Lemma check_destination_other (p : string) :
  path_suffix p <> ".xlsx" ->
  check_destination (DStr p) = Ok p /\ check_destination (DPath p) = Ok p.
Proof.
  intros H. unfold check_destination. simpl.
  destruct (decide _); [contradiction|easy].
Qed.

(** A destination that does not exist and is not locked is written,
    whatever the table. *)
Lemma save_excel_fresh (w : world) (path : path_arg) (p : string)
    (df : DataFrame) (name : option string) (policy : string) :
  check_destination path = Ok p ->
  files w !! p = None ->
  p ∉ locked w ->
  let out := save_excel w path df name policy in
  ret out = Ok df
  /\ disk out = <[p := Book [{| title := target_name name;
                                cells := append_rows false (to_dicts df) |}]]>
                  (files w)
  /\ EvSave p ∈ trace out.
Proof.
  intros Hc Hf Hl. unfold save_excel. rewrite Hc. unfold acquire. rewrite Hf.
  unfold resolve_conflict. simpl.
  destruct (decide (target_name name ∈ [])) as [Hin|_];
    [now apply elem_of_nil in Hin|].
  destruct (decide (p ∈ locked w)); [contradiction|]. simpl.
  repeat split. set_solver.
Qed.

(** C1 (the code departs from the claim). The destination guard of
    [save_excel] is the wrong way round: the destination [out.xlsx], a
    string or a [Path], is refused with the usage error of line 195 before
    any document is opened, in every world and for every table, while the
    destination [out.csv] passes the guard and, where no such file exists,
    is written and the table returned. *)
Theorem save_excel_guard_refuses_xlsx :
  forall (w : world) (df : DataFrame) (name : option string)
         (policy : string),
    save_excel w (DStr "out.xlsx") df name policy
      = {| ret := Raise (ValueError SaveBadExtension);
           disk := files w; trace := [] |}
    /\ save_excel w (DPath "out.xlsx") df name policy
      = {| ret := Raise (ValueError SaveBadExtension);
           disk := files w; trace := [] |}
    /\ (let out := save_excel {| files := ∅; locked := ∅ |}
                     (DStr "out.csv") df name policy in
        ret out = Ok df /\ EvSave "out.csv" ∈ trace out).
Proof.
  intros w df name policy.
  assert (Hx : path_suffix "out.xlsx" = ".xlsx") by reflexivity.
  destruct (check_destination_xlsx _ Hx) as [H1 H2].
  split; [|split].
  - unfold save_excel. now rewrite H1.
  - unfold save_excel. now rewrite H2.
  - assert (Hc : path_suffix "out.csv" <> ".xlsx")
      by (vm_compute; discriminate).
    destruct (check_destination_other _ Hc) as [H3 _].
    destruct (save_excel_fresh {| files := ∅; locked := ∅ |}
                (DStr "out.csv") "out.csv" df name policy H3) as (Hr & _ & Hs);
      simpl; [apply lookup_empty|apply not_elem_of_empty|].
    split; assumption.
Qed.

(** The branch of line 227 taken by itself.  When the destination passes
    the guard of lines 188-198 and holds a workbook that already has a
    sheet called [sheet_name or "Sheet"], [save_excel] with the policy
    ["skip"] returns the table it was given, raises nothing, leaves the
    file system as it was, and does nothing to the document but open and
    close it. *)
Theorem save_excel_skip_is_noop :
  forall (w : world) (path : path_arg) (p : string) (wb : Workbook)
         (df : DataFrame) (sheet_name : option string),
    check_destination path = Ok p ->
    files w !! p = Some (Book wb) ->
    target_name sheet_name ∈ sheetnames wb ->
    save_excel w path df sheet_name "skip"
      = {| ret := Ok df; disk := files w; trace := [EvOpen p; EvClose] |}
    /\ forallb (fun e => negb (modifies e))
               (trace (save_excel w path df sheet_name "skip")) = true.
Proof.
  intros w path p wb df sheet_name Hc Hf Hin.
  assert (E : save_excel w path df sheet_name "skip"
      = {| ret := Ok df; disk := files w; trace := [EvOpen p; EvClose] |}).
  { unfold save_excel. rewrite Hc. unfold acquire. rewrite Hf.
    unfold resolve_conflict.
    destruct (decide (target_name sheet_name ∈ sheetnames wb));
      [|contradiction].
    reflexivity. }
  split; [exact E|]. now rewrite E.
Qed.

Lemma save_excel_skip_is_noop_witness :
  let w := {| files := {[ "book.xlsm" :=
                Book [{| title := "Sheet"; cells := [[VStr "a"]] |}] ]};
              locked := ∅ |} in
  let df := {| columns := ["a"]; records := [[VInt 1]] |} in
  save_excel w (DStr "book.xlsm") df None "skip"
    = {| ret := Ok df; disk := files w;
         trace := [EvOpen "book.xlsm"; EvClose] |}.
Proof.
  intros w df.
  apply (save_excel_skip_is_noop w (DStr "book.xlsm") "book.xlsm"
           [{| title := "Sheet"; cells := [[VStr "a"]] |}] df None).
  - reflexivity.
  - reflexivity.
  - apply list_elem_of_here.
Defined.

(** C8 (the code departs from the claim). For a destination called
    [book.xlsx] the call never gets to the conflict policy: the guard of
    line 194 refuses the name (the defect of C1), so with the policy
    ["skip"] and a workbook at [book.xlsx] that already has the sheet
    [Sheet], [save_excel] raises the usage error of line 195 instead of
    returning the table.  The document is left alone, as the claim
    says, but not even opened. *)
Theorem save_excel_skip_refused_for_xlsx :
  let wb := [{| title := "Sheet"; cells := [[VStr "a"]; [VInt 1]] |}] in
  let w0 := {| files := {[ "book.xlsx" := Book wb ]}; locked := ∅ |} in
  let df := {| columns := ["a"]; records := [[VInt 2]] |} in
  files w0 !! "book.xlsx" = Some (Book wb)
  /\ target_name None ∈ sheetnames wb
  /\ save_excel w0 (DStr "book.xlsx") df None "skip"
     = {| ret := Raise (ValueError SaveBadExtension);
          disk := files w0; trace := [] |}
  /\ ret (save_excel w0 (DStr "book.xlsx") df None "skip") <> Ok df
  /\ (forall (w : world) (d : DataFrame) (sheet_name : option string),
        save_excel w (DStr "book.xlsx") d sheet_name "skip"
        = {| ret := Raise (ValueError SaveBadExtension);
             disk := files w; trace := [] |}).
Proof.
  intros wb w0 df.
  assert (Hx : path_suffix "book.xlsx" = ".xlsx") by reflexivity.
  destruct (check_destination_xlsx _ Hx) as [H1 _].
  assert (Hall : forall (w : world) (d : DataFrame) (n : option string),
             save_excel w (DStr "book.xlsx") d n "skip"
             = {| ret := Raise (ValueError SaveBadExtension);
                  disk := files w; trace := [] |}).
  { intros w d n. unfold save_excel. now rewrite H1. }
  split; [reflexivity|]. split; [apply list_elem_of_here|].
  split; [apply Hall|]. split; [|exact Hall].
  rewrite Hall. discriminate.
Qed.

End SaveFacts.

(** ** Properties of [load_excel] *)

Module LoadFacts.
Import Load Spec.

(** *** The source argument *)

Lemma check_source_stream (E : env) (data : string) :
  check_source E (FBufferedReader data) = Ok "<file-like>"
  /\ check_source E (FBytesIO data) = Ok "<file-like>".
Proof. split; reflexivity. Qed.

Lemma check_source_string (E : env) (s : string) :
  check_source E (FStr s) = Raise (ValueError LoadBadExtension).
Proof.
  unfold check_source.
  destruct (decide (path_suffix s ∉ ["xlsx"; "xls"])) as [|H]; [reflexivity|].
  destruct H. apply path_suffix_no_bare_extension.
Qed.

(** C3 (the code departs from the claim). [load_excel] refuses every
    string path, also one that ends in [.xlsx] or [.xls] and exists: the
    suffix of a path is empty or starts with a dot, so it is never one of
    ["xlsx"], ["xls"] (line 70), and the call ends in the usage error of
    line 71 whatever the other arguments.  The rest of the check is as
    claimed: a stream is accepted, anything else is a usage error. *)
Theorem load_excel_refuses_string_paths :
  forall (E : env) (s : string) (sheet : sheet_arg) (zero_cell : pred_arg)
         (skip_rows skip_foot : option Z) (take_cols : pred_arg),
    load_excel E (FStr s) sheet zero_cell skip_rows skip_foot take_cols
      = Raise (ValueError LoadBadExtension)
    /\ forall f : file_arg,
         check_source E f
         = match f with
           | FStr _ => Raise (ValueError LoadBadExtension)
           | FBufferedReader _ | FBytesIO _ => Ok "<file-like>"
           | FPath _ | FOther => Raise (ValueError LoadBadFileType)
           end.
Proof.
  intros E s sheet zero_cell skip_rows skip_foot take_cols. split.
  - unfold load_excel. now rewrite check_source_string.
  - intros [s'| | | |]; try reflexivity. apply check_source_string.
Qed.

(** A stream passes the check, but what is opened afterwards is the file
    name ["<file-like>"] that line 64 puts in its place, not the stream. *)
Lemma load_excel_stream_opens_name (E : env) (data : string)
    (sheet : sheet_arg) (skip_rows skip_foot : option Z) :
  fs E !! "<file-like>" = None ->
  load_excel E (FBytesIO data) sheet PNone skip_rows skip_foot PNone
  = Raise (RuntimeError LoadOpenFailed LibraryError).
Proof.
  intros H. unfold load_excel. simpl. unfold open_book. now rewrite H.
Qed.

(** *** The sheet selector *)

Lemma resolve_sheet_int (book : ReadOnlyWorkbook) (k : Z) :
  resolve_sheet book (SInt k) = resolve_sheet book (SInt 0).
Proof. reflexivity. Qed.

(** C4 (the code departs from the claim). An integer selector is not
    used as an index: every integer resolves to what [0] resolves to
    (line 118 reads [book.worksheets[0]]).  In a workbook with the two
    sheets [A] and [B] the selector [1] gives [A], not [B], and the
    selector [7], which names no sheet, gives [A] too instead of an
    error. *)
Theorem resolve_sheet_ignores_index :
  let A := {| ws_title := "A";
              iter_rows := fun _ => [[{| value := VStr "a" |}]] |} in
  let B := {| ws_title := "B";
              iter_rows := fun _ => [[{| value := VStr "b" |}]] |} in
  let book := {| worksheets := [A; B] |} in
  (forall (wb : ReadOnlyWorkbook) (k : Z),
     resolve_sheet wb (SInt k) = resolve_sheet wb (SInt 0))
  /\ resolve_sheet book (SInt 1) = Ok A
  /\ spec_resolve_index book 1 = Ok B
  /\ resolve_sheet book (SInt 7) = Ok A
  /\ spec_resolve_index book 7
     = Raise (ValueErrorFrom LoadSheetFailed IndexError).
Proof. repeat split. Qed.

(** *** The footer *)

Lemma written_nat (rs : list (list Value)) (n : nat) :
  written (Some (Z.of_nat n)) rs = take n rs.
Proof. apply slice_to_nat. Qed.

(** The guard of line 158 never fires once two rows were collected. *)
Lemma footer_guard_two_rows (rs : list (list Value)) (skip_foot : option Z) :
  2 <= length rs -> footer_guard skip_foot rs = Ok ().
Proof.
  intros H. unfold footer_guard. destruct skip_foot as [n|]; [|reflexivity].
  destruct (decide _) as [[? _]|]; [lia|reflexivity].
Qed.

(** C2 (the code departs from the claim). With a footer count [n >= 0]
    the rows handed to the writer are [rows[:n]], the first [n] collected
    rows, not the collected rows without their last [n].  For the header
    and three data rows, [skip_foot = 1] keeps the header alone where the
    claim keeps the header and two data rows. *)
Theorem written_keeps_first_rows :
  let h := [VStr "Name"] in
  let a := [VStr "Ann"] in
  let b := [VStr "Bob"] in
  let t := [VStr "TOTAL"] in
  (forall (rs : list (list Value)) (n : nat),
     written (Some (Z.of_nat n)) rs = take n rs)
  /\ written (Some 1%Z) [h; a; b; t] = [h]
  /\ spec_trim_footer 1 [h; a; b; t] = [h; a; b].
Proof. split; [exact written_nat|split; reflexivity]. Qed.

(** C5 (the code departs from the claim). The guard of line 158 asks for
    [len(rows) < 2] as well, so with a header and two data rows a footer
    count of 5 is let through (and all three rows are written), where the
    claim, like the message of line 160, wants the configuration error. *)
Theorem footer_guard_lets_large_count_through :
  let rs := [[VStr "Name"]; [VStr "Ann"]; [VStr "Bob"]] in
  footer_guard (Some 5%Z) rs = Ok ()
  /\ written (Some 5%Z) rs = rs
  /\ spec_footer_guard (Some 5%Z) rs = Raise (ValueError LoadSkipFootTooLarge).
Proof. repeat split. Qed.

(** *** The scan *)

Ltac bind_cases :=
  repeat match goal with
  | H : context [bind ?r _] |- _ =>
      let E := fresh "E" in destruct r eqn:E; simpl in H; try discriminate
  | H : context [if negb ?b then _ else _] |- _ =>
      let E := fresh "E" in destruct b eqn:E; simpl in H; try discriminate
  | H : (let '(_, _) := ?p in _) = _ |- _ => destruct p; simpl in H
  end.

Lemma mapM_snoc {A B} (f : A -> result B) xs x ys y :
  mapM f xs = Ok ys -> f x = Ok y -> mapM f (xs ++ [x]) = Ok (ys ++ [y]).
Proof.
  revert ys. induction xs as [|x0 xs IH]; simpl; intros ys.
  - intros [= <-] ->. reflexivity.
  - destruct (f x0); simpl; [|discriminate].
    destruct (mapM f xs) as [zs|] eqn:Hm; simpl; [|discriminate].
    intros [= <-] Hx. now rewrite (IH zs eq_refl Hx).
Qed.

(** [normalize] raises nothing but [TypeError], and does so as soon as
    one value is not a string. *)
Lemma mapM_normalize_non_str (data : list Value) :
  (exists v, v ∈ data /\ is_str v = false) ->
  mapM normalize data = Raise TypeError.
Proof.
  intros (v & Hin & Hv). induction data as [|d data IH].
  - now apply elem_of_nil in Hin.
  - simpl. destruct d; try reflexivity. simpl.
    apply elem_of_cons in Hin as [->|Hin]; [discriminate|].
    now rewrite (IH Hin).
Qed.

Lemma mapM_normalize_all_str (data hdr : list Value) :
  mapM normalize data = Ok hdr -> forallb is_str data = true.
Proof.
  revert hdr. induction data as [|d data IH]; simpl; intros hdr; [easy|].
  destruct d; simpl; try discriminate.
  destruct (mapM normalize data) as [tl|] eqn:E; simpl; [|discriminate].
  intros _. now apply (IH tl).
Qed.

Lemma scan_passes (tc : Cell -> result bool) (tcols : Value -> result bool)
    (pre rest : list Row) (s s1 : state) :
  passes tc tcols s pre = Some s1 ->
  scan tc tcols s (pre ++ rest) = scan tc tcols s1 rest.
Proof.
  revert s. induction pre as [|r pre IH]; simpl; intros s.
  - now intros [= ->].
  - destruct (scan_row tc tcols s r) as [[s'|s']|]; simpl; try discriminate.
    apply IH.
Qed.

(** A row whose anchor cell is empty leaves the loop and adds nothing. *)
Lemma scan_row_empty_anchor (tc : Cell -> result bool)
    (tcols : Value -> result bool) (s : state) (row : Row) (c : nat) :
  locate tc s row = Ok (c, true) ->
  cell_value row c = Ok VNone ->
  exists s', scan_row tc tcols s row = Ok (Break s') /\ rows s' = rows s.
Proof.
  intros Hl Hv. unfold scan_row. rewrite Hl. simpl. rewrite Hv. simpl.
  eexists. split; reflexivity.
Qed.

(** Once the header is read the column indices stay as they are, and the
    column predicate is not consulted again: the turn of the loop is the
    same for any two predicates. *)
Lemma scan_row_frozen_idxs (tc : Cell -> result bool)
    (tcols tcols' : Value -> result bool) (s : state) (row : Row) :
  head_read s = true ->
  scan_row tc tcols s row = scan_row tc tcols' s row
  /\ forall s', (scan_row tc tcols s row = Ok (Continue s')
                 \/ scan_row tc tcols s row = Ok (Break s')) ->
                idxs s' = idxs s.
Proof.
  intros Hh. unfold scan_row. rewrite Hh. split; [reflexivity|].
  intros s' [H|H]; bind_cases;
    repeat match goal with
           | H : context [decide ?P] |- _ => destruct (decide P); simpl in H
           end;
    bind_cases; now inversion H.
Qed.

(** C7. Let the scan have gone through the rows [pre] of the sheet without
    leaving the loop, and let the next row [row] be met in data-collection
    mode (the anchor column [c] is known, from an earlier row or from this
    one) with an empty cell at the anchor column.  Then the scan ends
    there: the rows collected are those collected from [pre], whatever
    rows [post] follow in the sheet. *)
Theorem scan_stops_at_empty_anchor :
  forall (book : ReadOnlyWorkbook) (sheet : sheet_arg) (sh : Worksheet)
         (tc : Cell -> result bool) (tcols : Value -> result bool)
         (zero_cell : pred_arg) (skip_rows : option Z)
         (pre post : list Row) (row : Row) (s : state) (c : nat),
    resolve_sheet book sheet = Ok sh ->
    iter_rows sh (min_row skip_rows) = pre ++ row :: post ->
    passes tc tcols (init zero_cell) pre = Some s ->
    locate tc s row = Ok (c, true) ->
    cell_value row c = Ok VNone ->
    collect book sheet tc tcols zero_cell skip_rows = Ok (rows s).
Proof.
  intros book sheet sh tc tcols zero_cell skip_rows pre post row s c
         Hsh Hrows Hpre Hloc Hval.
  unfold collect. rewrite Hsh. simpl. rewrite Hrows.
  rewrite (scan_passes _ _ _ _ _ _ Hpre). simpl.
  destruct (scan_row_empty_anchor tc tcols s row c Hloc Hval)
    as (s' & -> & Hrs).
  simpl. now rewrite Hrs.
Qed.

Lemma scan_stops_at_empty_anchor_witness :
  let cell := fun v => {| value := v |} in
  let pre := [ [cell (VStr "Name"); cell (VStr "Age")];
               [cell (VStr "Ann"); cell (VInt 30)] ] in
  let row := [cell VNone; cell (VStr "x")] in
  let post := [ [cell (VStr "Zed"); cell (VInt 1)] ] in
  let sh := {| ws_title := "S"; iter_rows := fun _ => pre ++ row :: post |} in
  collect {| worksheets := [sh] |} (SStr "S") (fun _ => Ok true)
          (fun _ => Ok true) PNone None
  = Ok [[VStr "Name"; VStr "Age"]; [VStr "Ann"; VInt 30]].
Proof.
  intros cell pre row post sh.
  exact (scan_stops_at_empty_anchor {| worksheets := [sh] |} (SStr "S") sh
           (fun _ => Ok true) (fun _ => Ok true) PNone None pre post row
           {| read_immediately := true; head_read := true; i_row := 2;
              i_col := 0; idxs := [0; 1];
              rows := [[VStr "Name"; VStr "Age"]; [VStr "Ann"; VInt 30]] |}
           0 eq_refl eq_refl eq_refl eq_refl eq_refl).
Defined.

(** What [collect] raises, [load_excel] raises: nothing after the [with]
    block catches an exception. *)
Lemma load_excel_raises_what_collect_raises (E : env) (f : file_arg)
    (sheet : sheet_arg) (zero_cell take_cols : pred_arg)
    (skip_rows skip_foot : option Z) (path : string) (book : ReadOnlyWorkbook)
    (tc : Cell -> result bool) (tcols : Value -> result bool) (e : exn) :
  check_source E f = Ok path ->
  make_test_cell zero_cell = Ok tc ->
  make_test_cols E take_cols = Ok tcols ->
  open_book E path = Ok book ->
  collect book sheet tc tcols zero_cell skip_rows = Raise e ->
  load_excel E f sheet zero_cell skip_rows skip_foot take_cols = Raise e.
Proof.
  intros H1 H2 H3 H4 H5. unfold load_excel.
  rewrite H1; simpl. rewrite H2; simpl. rewrite H3; simpl.
  rewrite H4; simpl. now rewrite H5.
Qed.

(** *** Which rows are normalised *)

Lemma locate_reading (tc : Cell -> result bool) (s : state) (row : Row) :
  read_immediately s = true -> locate tc s row = Ok (i_col s, true).
Proof. intros H. unfold locate. now rewrite H. Qed.

Ltac scan_row_cases H :=
  repeat match type of H with
  | context [bind ?r _] =>
      let E := fresh "E" in destruct r eqn:E; simpl in H; try discriminate
  | context [if negb ?b then _ else _] =>
      let E := fresh "E" in destruct b eqn:E; simpl in H; try discriminate
  | context [decide ?P] =>
      destruct (decide P); simpl in H; try discriminate
  | (let '(_, _) := ?p in _) = _ => destruct p; simpl in H
  end.

Lemma scan_row_collected (tc : Cell -> result bool)
    (tcols : Value -> result bool) (s s' : state) (seen : list Row)
    (row : Row) :
  collected s seen ->
  scan_row tc tcols s row = Ok (Continue s') ->
  collected s' (seen ++ [row]).
Proof.
  intros Hc H. unfold scan_row in H.
  destruct Hc as [[Hh Hr]|(Hh & Hri & pre & hrow & ds & raw & hdr & body
                           & -> & Hraw & Hhdr & Hbody & Hr)].
  - rewrite Hh in H. scan_row_cases H; inversion H; subst; clear H;
      try (left; simpl; now split).
    right. simpl. split; [reflexivity|split; [reflexivity|]].
    match goal with
    | Hs : select _ row = Ok ?data, Hn : mapM normalize ?data = Ok ?hd |- _ =>
        exists seen, row, [], data, hd, []
    end.
    rewrite Hr. repeat split; trivial.
  - rewrite (locate_reading _ _ _ Hri) in H. simpl in H. rewrite Hh in H.
    scan_row_cases H; inversion H; subst; clear H.
    right. simpl. split; [reflexivity|split; [reflexivity|]].
    match goal with
    | Hs : select _ row = Ok ?data |- _ =>
        exists pre, hrow, (ds ++ [row]), raw, hdr, (body ++ [data])
    end.
    repeat split; trivial.
    + now rewrite <- app_assoc.
    + now apply mapM_snoc.
    + now rewrite Hr.
Qed.

Lemma scan_row_break_collected (tc : Cell -> result bool)
    (tcols : Value -> result bool) (s s' : state) (seen : list Row)
    (row : Row) :
  collected s seen ->
  scan_row tc tcols s row = Ok (Break s') ->
  collected s' seen.
Proof.
  intros Hc H. unfold scan_row in H.
  scan_row_cases H; inversion H; subst; clear H;
    (destruct Hc as [[Hh Hr]|(Hh & Hri & Hex)];
     [left; simpl; now split|right; simpl; repeat split; trivial]).
Qed.

Lemma scan_collected (tc : Cell -> result bool)
    (tcols : Value -> result bool) (rs : list Row) :
  forall (s s' : state) (seen : list Row),
    collected s seen ->
    scan tc tcols s rs = Ok s' ->
    exists used post, rs = used ++ post /\ collected s' (seen ++ used).
Proof.
  induction rs as [|row rs IH]; simpl; intros s s' seen Hc H.
  - inversion H; subst. exists [], []. split; [reflexivity|].
    now rewrite app_nil_r.
  - destruct (scan_row tc tcols s row) as [[s1|s1]|] eqn:Hrow; simpl in H;
      try discriminate.
    + destruct (IH s1 s' (seen ++ [row])
                  (scan_row_collected _ _ _ _ _ _ Hc Hrow) H)
        as (used & post & -> & Hc').
      exists (row :: used), post. split; [reflexivity|].
      now rewrite <- app_assoc in Hc'.
    + inversion H; subst. exists [], (row :: rs). rewrite app_nil_r.
      split; [reflexivity|].
      exact (scan_row_break_collected _ _ _ _ _ _ Hc Hrow).
Qed.

(** *** The column indices *)

(** The indices the code keeps are those of the fields that pass the
    predicate, counted from the start of the row, each moved right by the
    anchor column. *)
Lemma header_idxs_shift (t : Value -> result bool) (c : nat) (row : Row) :
  forall (i : nat) (ix : list nat),
    header_idxs t 0 i row = Ok ix ->
    header_idxs t c i row = Ok (map (Nat.add c) ix).
Proof.
  induction row as [|cell row IH]; simpl; intros i ix.
  - now intros [= <-].
  - destruct (t (value cell)) as [b|]; simpl; [|discriminate].
    destruct (header_idxs t 0 (S i) row) as [tl|] eqn:Htl; simpl;
      [|discriminate].
    intros [= <-]. rewrite (IH (S i) tl Htl). simpl.
    now destruct b.
Qed.

Lemma header_idxs_from (t : Value -> result bool) (row : Row) :
  forall (pre : Row),
    header_idxs t 0 (length pre) row
    = filterM (fun j => v <- cell_value (pre ++ row) j ;; t v)
              (seq (length pre) (length row)).
Proof.
  induction row as [|cell row IH]; simpl; intros pre; [reflexivity|].
  assert (Hc : cell_value (pre ++ cell :: row) (length pre) = Ok (value cell)).
  { unfold cell_value. now rewrite list_lookup_middle. }
  rewrite Hc. simpl.
  destruct (t (value cell)) as [b|]; simpl; [|reflexivity].
  specialize (IH (pre ++ [cell])).
  rewrite length_app, <- app_assoc in IH. simpl in IH.
  rewrite Nat.add_1_r in IH. now rewrite IH.
Qed.

(** With the anchor in column 0 the code does what the specification
    says. *)
Lemma header_idxs_anchor_0 (t : Value -> result bool) (row : Row) :
  header_idxs t 0 0 row = spec_header_idxs t 0 row.
Proof.
  unfold spec_header_idxs. rewrite Nat.sub_0_r.
  exact (header_idxs_from t row []).
Qed.

Lemma header_idxs_bound (t : Value -> result bool) (row : Row) :
  forall (i : nat) (ix : list nat),
    header_idxs t 0 i row = Ok ix ->
    Forall (fun j => j < i + length row) ix.
Proof.
  induction row as [|cell row IH]; simpl; intros i ix.
  - intros [= <-]. constructor.
  - destruct (t (value cell)) as [b|]; simpl; [|discriminate].
    destruct (header_idxs t 0 (S i) row) as [tl|] eqn:Htl; simpl;
      [|discriminate].
    intros [= <-]. specialize (IH (S i) tl Htl).
    assert (Htl' : Forall (fun j => j < i + S (length row)) tl).
    { eapply Forall_impl; [exact IH|]. simpl. intros j Hj. lia. }
    destruct b; [constructor; [lia|]|]; exact Htl'.
Qed.

Lemma select_in_range (row : Row) (ix : list nat) :
  Forall (fun j => j < length row) ix -> exists data, select ix row = Ok data.
Proof.
  induction 1 as [|j ix Hj _ [data IH]]; [now exists []|].
  destruct (lookup_lt_is_Some_2 row j Hj) as [cell Hc].
  exists (value cell :: data). unfold select in *. simpl.
  unfold cell_value at 1. rewrite Hc. simpl. now rewrite IH.
Qed.

(** With the anchor in column 0 every index kept lies inside the header
    row: selecting the header fields does not fail. *)
Lemma select_header_anchor_0 (t : Value -> result bool) (row : Row)
    (ix : list nat) :
  header_idxs t 0 0 row = Ok ix -> exists data, select ix row = Ok data.
Proof.
  intros H. apply select_in_range. exact (header_idxs_bound t row 0 ix H).
Qed.

(** C6 (the code departs from the claim). The predicate is applied to
    the header fields from column 0, not from the anchor column, and the
    index kept for the field at index [i] is [i_col + i].  For the header
    row [junk, Name, Age] with the anchor found at [Name] (column 1) and
    the columns restricted to [Name], the field that passes is the one at
    index 1 and the index kept is 2: the table gets the column [Age].
    With no restriction on the columns the indices kept are 1, 2, 3 and
    reading the header row ends in an [IndexError]. *)
Theorem header_idxs_shifted_by_anchor :
  let cell := fun v => {| value := v |} in
  let hrow := [cell (VStr "junk"); cell (VStr "Name"); cell (VStr "Age")] in
  let drow := [cell (VStr "x"); cell (VStr "Ann"); cell (VInt 30)] in
  let sh := {| ws_title := "S"; iter_rows := fun _ => [hrow; drow] |} in
  let book := {| worksheets := [sh] |} in
  let tc := fun cl => Ok (bool_decide (value cl = VStr "Name")) in
  let only_name := fun col => Ok (bool_decide (col ∈ map VStr ["Name"])) in
  make_test_cell (PStr "Name") = Ok tc
  /\ locate tc (init (PStr "Name")) hrow = Ok (1, true)
  /\ header_idxs only_name 1 0 hrow = Ok [2]
  /\ spec_header_idxs only_name 1 hrow = Ok [1]
  /\ collect book (SInt 0) tc only_name (PStr "Name") None
     = Ok [[VStr "Age"]; [VInt 30]]
  /\ header_idxs (fun _ => Ok true) 1 0 hrow = Ok [1; 2; 3]
  /\ collect book (SInt 0) tc (fun _ => Ok true) (PStr "Name") None
     = Raise IndexError.
Proof. repeat split. Qed.

End LoadFacts.

(** ** Header normalisation *)

Module TextFacts.
Import Load Text.

Lemma single_spaced_weaken (s : string) :
  single_spaced true s = true -> single_spaced false s = true.
Proof.
  destruct s as [|c s]; simpl; [easy|].
  destruct (is_space c); [|easy].
  rewrite andb_false_r. discriminate.
Qed.

Lemma collapse_single_spaced (s : string) :
  forall b, single_spaced b (collapse b s) = true.
Proof.
  induction s as [|c s IH]; intros b; simpl; [reflexivity|].
  destruct (is_space c) eqn:Hc.
  - destruct b; [apply IH|]. simpl. now rewrite IH.
  - simpl. rewrite Hc. apply IH.
Qed.

Lemma lstrip_single_spaced (s : string) :
  forall b, single_spaced b s = true -> single_spaced false (lstrip s) = true.
Proof.
  induction s as [|c s IH]; intros b; simpl; [easy|].
  destruct (is_space c) eqn:Hc.
  - intros H. apply andb_prop in H as [_ H]. now apply (IH true).
  - intros H. simpl. now rewrite Hc.
Qed.

Lemma rstrip_single_spaced (s : string) :
  forall b, single_spaced b s = true -> single_spaced b (rstrip s) = true.
Proof.
  induction s as [|c s IH]; intros b; simpl; [easy|].
  destruct (is_space c) eqn:Hc.
  - intros H. apply andb_prop in H as [H1 H2].
    specialize (IH true H2).
    destruct (rstrip s) as [|d r]; [reflexivity|].
    simpl in *. rewrite Hc, H1. exact IH.
  - intros H. specialize (IH false H).
    destruct (rstrip s) as [|d r]; simpl; rewrite Hc; [reflexivity|].
    exact IH.
Qed.

Lemma lstrip_start (s : string) : starts_with_space (lstrip s) = false.
Proof.
  induction s as [|c s IH]; simpl; [reflexivity|].
  destruct (is_space c) eqn:Hc; [exact IH|]. simpl. exact Hc.
Qed.

Lemma rstrip_start (s : string) :
  starts_with_space s = false -> starts_with_space (rstrip s) = false.
Proof.
  destruct s as [|c s]; simpl; [easy|].
  intros Hc. rewrite Hc. now destruct (rstrip s); simpl.
Qed.

Lemma rstrip_end (s : string) : ends_with_space (rstrip s) = false.
Proof.
  induction s as [|c s IH]; simpl; [reflexivity|].
  destruct (rstrip s) as [|d r] eqn:Hr.
  - destruct (is_space c) eqn:Hc; simpl; [reflexivity|exact Hc].
  - exact IH.
Qed.

Lemma collapse_fixed (s : string) :
  forall b, single_spaced b s = true -> collapse b s = s.
Proof.
  induction s as [|c s IH]; intros b; simpl; [reflexivity|].
  destruct (is_space c) eqn:Hc.
  - intros H. apply andb_prop in H as [H1 H2].
    apply andb_prop in H1 as [Hb Hp].
    apply Ascii.eqb_eq in Hb. subst c.
    destruct b; [discriminate|]. now rewrite (IH true H2).
  - intros H. now rewrite (IH false H).
Qed.

Lemma lstrip_fixed (s : string) :
  starts_with_space s = false -> lstrip s = s.
Proof. destruct s as [|c s]; simpl; [easy|]. now intros ->. Qed.

Lemma rstrip_fixed (s : string) :
  ends_with_space s = false -> rstrip s = s.
Proof.
  induction s as [|c s IH]; simpl; [reflexivity|].
  destruct s as [|d r].
  - simpl. now intros ->.
  - intros H. now rewrite (IH H).
Qed.

Lemma strip_collapse_tidy (s : string) :
  tidy (strip (collapse false s)) = true.
Proof.
  unfold tidy, strip.
  rewrite (rstrip_single_spaced _ false
             (lstrip_single_spaced _ false (collapse_single_spaced s false))).
  rewrite (rstrip_start _ (lstrip_start _)), rstrip_end. reflexivity.
Qed.

Lemma tidy_fixed (s : string) :
  tidy s = true -> strip (collapse false s) = s.
Proof.
  unfold tidy. intros H.
  apply andb_prop in H as [H H3]. apply andb_prop in H as [H1 H2].
  apply negb_true_iff in H2, H3.
  rewrite (collapse_fixed s false H1). unfold strip.
  rewrite (lstrip_fixed s H2). now apply rstrip_fixed.
Qed.

Lemma letters_collapse (s : string) :
  forall b, letters (collapse b s) = letters s.
Proof.
  induction s as [|c s IH]; intros b; simpl; [reflexivity|].
  destruct (is_space c) eqn:Hc.
  - destruct b; [apply IH|]. simpl. apply IH.
  - simpl. rewrite Hc. now rewrite IH.
Qed.

Lemma letters_lstrip (s : string) : letters (lstrip s) = letters s.
Proof.
  induction s as [|c s IH]; simpl; [reflexivity|].
  destruct (is_space c) eqn:Hc; [exact IH|]. simpl. now rewrite Hc.
Qed.

Lemma letters_rstrip (s : string) : letters (rstrip s) = letters s.
Proof.
  induction s as [|c s IH]; simpl; [reflexivity|].
  destruct (rstrip s) as [|d r] eqn:Hr.
  - simpl in IH. destruct (is_space c) eqn:Hc; simpl; [exact IH|].
    rewrite Hc. now rewrite <- IH.
  - change (letters (String c (String d r))
            = if is_space c then letters s else c :: letters s).
    rewrite <- IH. reflexivity.
Qed.

(** X1. [normalize] accepts exactly the strings, and what it returns is
    a string with no white space at its ends and nothing but single
    blanks inside. *)
Theorem normalize_gives_tidy_string :
  forall v : Value,
    match normalize v with
    | Ok (VStr t) => is_str v = true /\ tidy t = true
    | Ok _ => False
    | Raise e => is_str v = false /\ e = TypeError
    end.
Proof.
  intros [|s|n|b|r]; simpl; try (split; reflexivity).
  split; [reflexivity|apply strip_collapse_tidy].
Qed.

(** X2. Normalising twice is normalising once. *)
Theorem normalize_idempotent :
  forall (v w : Value), normalize v = Ok w -> normalize w = Ok w.
Proof.
  intros [|s|n|b|r] w; simpl; try discriminate.
  intros [= <-]. simpl. f_equal. f_equal.
  apply tidy_fixed, strip_collapse_tidy.
Qed.

Lemma normalize_idempotent_witness :
  normalize (VStr "Col Name") = Ok (VStr "Col Name").
Proof.
  apply (normalize_idempotent (VStr "  Col 	 Name
") (VStr "Col Name")).
  reflexivity.
Defined.

(** X3. Normalisation touches white space only: the other characters
    of the header come out unchanged and in the same order. *)
Theorem normalize_keeps_letters :
  forall (s t : string),
    normalize (VStr s) = Ok (VStr t) -> letters t = letters s.
Proof.
  intros s t [= <-]. unfold strip.
  now rewrite letters_rstrip, letters_lstrip, letters_collapse.
Qed.

Lemma normalize_keeps_letters_witness :
  letters "Col Name" = letters " Col   Name ".
Proof.
  apply (normalize_keeps_letters " Col   Name " "Col Name"). reflexivity.
Defined.

End TextFacts.

(** ** More on the scan of [load_excel] *)

Module ScanFacts.
Import Load Spec LoadFacts ScanAux Text TextFacts.

Lemma find_anchor_spec (tc : Cell -> result bool) (row : Row) :
  forall (i : nat) (r : option nat),
    find_anchor tc i row = Ok r ->
    match r with
    | Some k =>
        exists j cell, k = i + j /\ row !! j = Some cell
                       /\ tc cell = Ok true
                       /\ Forall (fun c => tc c = Ok false) (take j row)
    | None => Forall (fun c => tc c = Ok false) row
    end.
Proof.
  induction row as [|cell row IH]; simpl; intros i r.
  - intros [= <-]. constructor.
  - destruct (tc cell) as [[|]|] eqn:Hc; simpl; try discriminate.
    + intros [= <-]. exists 0, cell. rewrite Nat.add_0_r.
      repeat split; trivial; constructor.
    + intros H. specialize (IH (S i) r H). destruct r as [k|].
      * destruct IH as (j & cell' & -> & Hj & Ht & Hall).
        exists (S j), cell'. repeat split; trivial; [lia|].
        simpl. now constructor.
      * now constructor.
Qed.

(** X4. The anchor is the first cell of the row, from the left, that
    passes the anchor predicate: the predicate holds for it and fails
    for every cell before it. *)
Theorem anchor_is_first_match :
  forall (tc : Cell -> result bool) (s : state) (row : Row) (c : nat),
    read_immediately s = false ->
    locate tc s row = Ok (c, true) ->
    exists cell, row !! c = Some cell /\ tc cell = Ok true
                 /\ Forall (fun c' => tc c' = Ok false) (take c row).
Proof.
  intros tc s row c Hs H. unfold locate in H. rewrite Hs in H.
  destruct (find_anchor tc 0 row) as [[k|]|] eqn:Hf; simpl in H;
    try discriminate.
  inversion H; subst; clear H.
  destruct (find_anchor_spec tc row 0 (Some c) Hf)
    as (j & cell & Hk & Hj & Ht & Hall).
  simpl in Hk. subst j. now exists cell.
Qed.

Lemma anchor_is_first_match_witness :
  let cell := fun v => {| value := v |} in
  let tc := fun cl => Ok (bool_decide (value cl = VStr "Name")) in
  let row := [cell (VStr "junk"); cell (VStr "Name"); cell (VStr "Name")] in
  exists cl, row !! 1 = Some cl /\ tc cl = Ok true
             /\ Forall (fun c' => tc c' = Ok false) (take 1 row).
Proof.
  intros cell tc row.
  apply (anchor_is_first_match tc (init (PStr "Name")) row 1);
    reflexivity.
Defined.

Lemma scan_row_reading (tc : Cell -> result bool)
    (tcols : Value -> result bool) (s : state) (row : Row) (c : ctl) :
  read_immediately s = true ->
  scan_row tc tcols s row = Ok c ->
  read_immediately (after c) = true /\ i_col (after c) = i_col s.
Proof.
  intros Hs H. unfold scan_row in H.
  rewrite (locate_reading tc s row Hs) in H. simpl in H.
  scan_row_cases H; inversion H; subst; clear H; simpl; now split.
Qed.

Lemma scan_row_any_anchor_test (tc tc' : Cell -> result bool)
    (tcols : Value -> result bool) (s : state) (row : Row) :
  read_immediately s = true ->
  scan_row tc tcols s row = scan_row tc' tcols s row.
Proof.
  intros Hs. unfold scan_row. now rewrite !(locate_reading _ s row Hs).
Qed.

(** X5. Once the anchor is found it stays: for the rest of the scan the
    anchor predicate is not consulted (any two predicates give the same
    scan) and the anchor column is the one the scan ends with. *)
Theorem anchor_column_is_frozen :
  forall (tc tc' : Cell -> result bool) (tcols : Value -> result bool)
         (rs : list Row) (s : state),
    read_immediately s = true ->
    scan tc tcols s rs = scan tc' tcols s rs
    /\ forall s', scan tc tcols s rs = Ok s' -> i_col s' = i_col s.
Proof.
  intros tc tc' tcols rs. induction rs as [|row rs IH]; intros s Hs; simpl.
  - split; [reflexivity|]. now intros s' [= <-].
  - rewrite <- (scan_row_any_anchor_test tc tc' tcols s row Hs).
    destruct (scan_row tc tcols s row) as [c|] eqn:Hrow; simpl;
      [|split; [reflexivity|discriminate]].
    destruct (scan_row_reading tc tcols s row c Hs Hrow) as [Hr Hc].
    destruct c as [s1|s1]; simpl in *.
    + destruct (IH s1 Hr) as [He Hi]. split; [exact He|].
      intros s' H. rewrite (Hi s' H). exact Hc.
    + split; [reflexivity|]. now intros s' [= <-].
Qed.

Lemma anchor_column_is_frozen_witness :
  let cell := fun v => {| value := v |} in
  let rs := [[cell (VStr "a"); cell (VStr "Name")]; [cell VNone]] in
  let s := {| read_immediately := true; head_read := true; i_row := 1;
              i_col := 0; idxs := [0]; rows := [[VStr "h"]] |} in
  scan (fun cl => Ok (bool_decide (value cl = VStr "Name")))
       (fun _ => Ok true) s rs
  = scan (fun _ => Raise (UserError "never called")) (fun _ => Ok true) s rs.
Proof.
  intros cell rs s.
  apply (anchor_column_is_frozen
           (fun cl => Ok (bool_decide (value cl = VStr "Name")))
           (fun _ => Raise (UserError "never called"))
           (fun _ => Ok true) rs s).
  reflexivity.
Defined.

Lemma scan_row_head_read (tc : Cell -> result bool)
    (tcols : Value -> result bool) (s : state) (row : Row) (c : ctl) :
  head_read s = true ->
  scan_row tc tcols s row = Ok c ->
  head_read (after c) = true /\ idxs (after c) = idxs s.
Proof.
  intros Hs H. unfold scan_row in H. rewrite Hs in H.
  scan_row_cases H; inversion H; subst; clear H; simpl; split;
    trivial; congruence.
Qed.

(** X6. Once the header is read the column set stays: for the rest of
    the scan the column predicate is not consulted, whatever the cells of
    the later rows hold, and the indices are those the scan ends with. *)
Theorem column_set_is_frozen :
  forall (tc : Cell -> result bool) (tcols tcols' : Value -> result bool)
         (rs : list Row) (s : state),
    head_read s = true ->
    scan tc tcols s rs = scan tc tcols' s rs
    /\ forall s', scan tc tcols s rs = Ok s' -> idxs s' = idxs s.
Proof.
  intros tc tcols tcols' rs. induction rs as [|row rs IH]; intros s Hs; simpl.
  - split; [reflexivity|]. now intros s' [= <-].
  - destruct (scan_row_frozen_idxs tc tcols tcols' s row Hs) as [<- _].
    destruct (scan_row tc tcols s row) as [c|] eqn:Hrow; simpl;
      [|split; [reflexivity|discriminate]].
    destruct (scan_row_head_read tc tcols s row c Hs Hrow) as [Hr Hc].
    destruct c as [s1|s1]; simpl in *.
    + destruct (IH s1 Hr) as [He Hi]. split; [exact He|].
      intros s' H. rewrite (Hi s' H). exact Hc.
    + split; [reflexivity|]. now intros s' [= <-].
Qed.

Lemma column_set_is_frozen_witness :
  let cell := fun v => {| value := v |} in
  let rs := [[cell (VStr "A"); cell (VStr "x")]; [cell VNone; cell VNone]] in
  let s := {| read_immediately := true; head_read := true; i_row := 1;
              i_col := 0; idxs := [0]; rows := [[VStr "A"]] |} in
  scan (fun _ => Ok true) (fun v => Ok (bool_decide (v = VStr "A"))) s rs
  = scan (fun _ => Ok true) (fun _ => Raise (UserError "never called")) s rs.
Proof.
  intros cell rs s.
  apply (column_set_is_frozen (fun _ => Ok true)
           (fun v => Ok (bool_decide (v = VStr "A")))
           (fun _ => Raise (UserError "never called")) rs s).
  reflexivity.
Defined.

Lemma passes_skipped (tc : Cell -> result bool)
    (tcols : Value -> result bool) (pre : list Row) :
  forall s : state,
    read_immediately s = false ->
    Forall (fun row => find_anchor tc 0 row = Ok None) pre ->
    passes tc tcols s pre = Some (skipped (length pre) s).
Proof.
  induction pre as [|row pre IH]; intros s Hs Hall; simpl.
  - unfold skipped. destruct s; simpl in *. now subst.
  - inversion Hall as [|? ? Hrow Hpre]; subst.
    unfold scan_row, locate. rewrite Hs, Hrow. simpl.
    rewrite IH; [|reflexivity|exact Hpre]. unfold skipped. simpl.
    do 2 f_equal. lia.
Qed.

(** X7. With an anchor predicate that no cell of the sheet passes,
    every row is skipped and nothing is collected, not even a header. *)
Theorem no_anchor_nothing_collected :
  forall (book : ReadOnlyWorkbook) (sheet : sheet_arg) (sh : Worksheet)
         (tc : Cell -> result bool) (tcols : Value -> result bool)
         (zero_cell : pred_arg) (skip_rows : option Z),
    resolve_sheet book sheet = Ok sh ->
    zero_cell <> PNone ->
    Forall (fun row => find_anchor tc 0 row = Ok None)
           (iter_rows sh (min_row skip_rows)) ->
    collect book sheet tc tcols zero_cell skip_rows = Ok [].
Proof.
  intros book sheet sh tc tcols zero_cell skip_rows Hsh Hz Hall.
  assert (Hi : read_immediately (init zero_cell) = false)
    by (destruct zero_cell; trivial; contradiction).
  unfold collect. rewrite Hsh. simpl.
  pose proof (passes_skipped tc tcols _ _ Hi Hall) as Hp.
  pose proof (scan_passes tc tcols _ [] _ _ Hp) as Hscan.
  rewrite app_nil_r in Hscan. rewrite Hscan. reflexivity.
Qed.

Lemma no_anchor_nothing_collected_witness :
  let cell := fun v => {| value := v |} in
  let sh := {| ws_title := "S";
               iter_rows := fun _ => [[cell (VStr "a"); cell (VInt 1)];
                                      [cell (VStr "b")]] |} in
  collect {| worksheets := [sh] |} (SStr "S")
          (fun cl => Ok (bool_decide (value cl = VStr "Name")))
          (fun _ => Ok true) (PStr "Name") None
  = Ok [].
Proof.
  intros cell sh.
  apply (no_anchor_nothing_collected {| worksheets := [sh] |} (SStr "S") sh).
  - reflexivity.
  - discriminate.
  - repeat constructor.
Defined.

Lemma mapM_Forall2 {A B} (f : A -> result B) (xs : list A) :
  forall ys, mapM f xs = Ok ys -> Forall2 (fun x y => f x = Ok y) xs ys.
Proof.
  induction xs as [|x xs IH]; simpl; intros ys.
  - intros [= <-]. constructor.
  - destruct (f x) as [y|] eqn:Hx; simpl; [|discriminate].
    destruct (mapM f xs) as [zs|] eqn:Hm; simpl; [|discriminate].
    intros [= <-]. constructor; [exact Hx|]. now apply IH.
Qed.

Lemma select_rows_width (ix : list nat) (ds : list Row)
    (body : list (list Value)) :
  mapM (select ix) ds = Ok body ->
  Forall (fun r => length r = length ix) body.
Proof.
  intros H. apply mapM_Forall2 in H.
  induction H as [|d r ds body Hd _ IH]; constructor; [|exact IH].
  exact (mapM_Ok_length _ _ _ Hd).
Qed.

(** The form of what [collect] returns, read off the loop invariant. *)
Lemma collect_form (book : ReadOnlyWorkbook) (sheet : sheet_arg)
    (tc : Cell -> result bool) (tcols : Value -> result bool)
    (zero_cell : pred_arg) (skip_rows : option Z)
    (rs : list (list Value)) :
  collect book sheet tc tcols zero_cell skip_rows = Ok rs ->
  rs = []
  \/ exists (ix : list nat) (hrow : Row) (ds : list Row)
            (raw hdr : list Value) (body : list (list Value)),
       select ix hrow = Ok raw /\ mapM normalize raw = Ok hdr
       /\ mapM (select ix) ds = Ok body /\ rs = hdr :: body.
Proof.
  intros H. unfold collect in H.
  destruct (resolve_sheet book sheet) as [sh|]; simpl in H; [|discriminate].
  destruct (scan tc tcols (init zero_cell) (iter_rows sh (min_row skip_rows)))
    as [s|] eqn:Hscan; simpl in H; [|discriminate].
  inversion H; subst; clear H.
  assert (Hinit : collected (init zero_cell) []) by (left; now split).
  destruct (scan_collected tc tcols _ _ _ _ Hinit Hscan)
    as (used & post & _ & [[_ Hr]|(_ & _ & pre & hrow & ds & raw & hdr
                                   & body & _ & Hraw & Hhdr & Hbody & Hr)]).
  - now left.
  - right. now exists (idxs s), hrow, ds, raw, hdr, body.
Qed.

(** X8. The rows collected from a sheet form a rectangle: the header
    and every data row have the same number of fields. *)
Theorem collected_rows_have_one_width :
  forall (book : ReadOnlyWorkbook) (sheet : sheet_arg)
         (tc : Cell -> result bool) (tcols : Value -> result bool)
         (zero_cell : pred_arg) (skip_rows : option Z)
         (rs : list (list Value)),
    collect book sheet tc tcols zero_cell skip_rows = Ok rs ->
    exists n, Forall (fun r => length r = n) rs.
Proof.
  intros book sheet tc tcols zero_cell skip_rows rs H.
  destruct (collect_form _ _ _ _ _ _ _ H)
    as [->|(ix & hrow & ds & raw & hdr & body & Hraw & Hhdr & Hbody & ->)].
  - exists 0. constructor.
  - exists (length ix). constructor.
    + rewrite (mapM_Ok_length _ _ _ Hhdr). exact (mapM_Ok_length _ _ _ Hraw).
    + exact (select_rows_width ix ds body Hbody).
Qed.

Lemma collected_rows_have_one_width_witness :
  exists n, Forall (fun r : list Value => length r = n)
                   [[VStr "Name"; VStr "Age"]; [VStr "Ann"; VInt 30]].
Proof.
  apply (collected_rows_have_one_width
           {| worksheets :=
                [{| ws_title := "S";
                    iter_rows := fun _ =>
                      [as_row [VStr "Name"; VStr "Age"; VStr "junk"];
                       as_row [VStr "Ann"; VInt 30]] |}] |}
           (SInt 0) (fun _ => Ok true)
           (fun v => Ok (bool_decide (v ∈ map VStr ["Name"; "Age"])))
           PNone None).
  reflexivity.
Defined.

Lemma normalize_all_tidy (raw hdr : list Value) :
  mapM normalize raw = Ok hdr ->
  Forall (fun v => exists t, v = VStr t /\ tidy t = true) hdr.
Proof.
  intros H. apply mapM_Forall2 in H.
  induction H as [|x y raw hdr Hxy _ IH]; constructor; [|exact IH].
  destruct x; simpl in Hxy; try discriminate.
  inversion Hxy; subst. eexists. split; [reflexivity|].
  apply strip_collapse_tidy.
Qed.

(** X9. The first collected row, the header, consists of strings, each
    with no white space at its ends and single blanks inside. *)
Theorem collected_header_is_tidy :
  forall (book : ReadOnlyWorkbook) (sheet : sheet_arg)
         (tc : Cell -> result bool) (tcols : Value -> result bool)
         (zero_cell : pred_arg) (skip_rows : option Z)
         (hdr : list Value) (body : list (list Value)),
    collect book sheet tc tcols zero_cell skip_rows = Ok (hdr :: body) ->
    Forall (fun v => exists t, v = VStr t /\ tidy t = true) hdr.
Proof.
  intros book sheet tc tcols zero_cell skip_rows hdr body H.
  destruct (collect_form _ _ _ _ _ _ _ H)
    as [?|(ix & hrow & ds & raw & hdr' & body' & _ & Hhdr & _ & Heq)];
    [discriminate|].
  inversion Heq; subst; clear Heq.
  exact (normalize_all_tidy raw hdr' Hhdr).
Qed.

Lemma collected_header_is_tidy_witness :
  Forall (fun v => exists t, v = VStr t /\ tidy t = true)
         [VStr "Full Name"; VStr "Age"].
Proof.
  apply (collected_header_is_tidy
           {| worksheets :=
                [{| ws_title := "S";
                    iter_rows := fun _ =>
                      [as_row [VStr " Full   Name"; VStr "Age "];
                       as_row [VStr "Ann"; VInt 30]] |}] |}
           (SInt 0) (fun _ => Ok true) (fun _ => Ok true) PNone None
           [VStr "Full Name"; VStr "Age"] [[VStr "Ann"; VInt 30]]).
  reflexivity.
Defined.

(** *** Rows that are too short *)

Lemma cell_value_cases (row : Row) (i : nat) :
  (exists cell, row !! i = Some cell /\ cell_value row i = Ok (value cell))
  \/ (length row <= i /\ cell_value row i = Raise IndexError).
Proof.
  unfold cell_value. destruct (row !! i) as [cell|] eqn:H.
  - left. now exists cell.
  - right. split; [now apply lookup_ge_None|reflexivity].
Qed.

Lemma select_out_of_range (row : Row) (ix : list nat) :
  (exists i, i ∈ ix /\ length row <= i) -> select ix row = Raise IndexError.
Proof.
  intros (i & Hin & Hi). unfold select.
  induction ix as [|j ix IH]; [now apply elem_of_nil in Hin|]. simpl.
  destruct (cell_value_cases row j) as [(cell & Hj & ->)|[_ ->]];
    [|reflexivity].
  simpl. apply elem_of_cons in Hin as [->|Hin].
  - apply lookup_lt_Some in Hj. lia.
  - now rewrite (IH Hin).
Qed.

(** X10. A row met in data-collection mode that is too short to have
    the anchor column, or (its anchor cell not being empty, the header
    read) one of the selected columns, ends the scan with an
    [IndexError]. *)
Theorem short_row_raises_IndexError :
  forall (tc : Cell -> result bool) (tcols : Value -> result bool)
         (s : state) (row : Row) (i : nat),
    read_immediately s = true ->
    head_read s = true ->
    i ∈ i_col s :: idxs s ->
    length row <= i ->
    (forall cell, row !! i_col s = Some cell -> value cell <> VNone) ->
    scan_row tc tcols s row = Raise IndexError.
Proof.
  intros tc tcols s row i Hr Hh Hin Hi Hv. unfold scan_row.
  rewrite (locate_reading tc s row Hr). simpl.
  destruct (cell_value_cases row (i_col s)) as [(cell & Hc & ->)|[Hlen ->]];
    [|reflexivity].
  simpl. destruct (decide (value cell <> VNone)) as [_|Hn];
    [|destruct Hn; now apply Hv].
  rewrite Hh. simpl.
  apply elem_of_cons in Hin as [->|Hin].
  - apply lookup_lt_Some in Hc. lia.
  - rewrite (select_out_of_range row (idxs s)); [reflexivity|].
    now exists i.
Qed.

Lemma short_row_raises_IndexError_witness :
  scan_row (fun _ => Ok true) (fun _ => Ok true)
    {| read_immediately := true; head_read := true; i_row := 1;
       i_col := 0; idxs := [0; 1]; rows := [[VStr "Name"; VStr "Age"]] |}
    (as_row [VStr "Ann"])
  = Raise IndexError.
Proof.
  apply (short_row_raises_IndexError _ _ _ _ 1); try reflexivity.
  - apply list_elem_of_further, list_elem_of_further, list_elem_of_here.
  - intros cell [= <-]. discriminate.
Defined.

(** *** A regular expression as column predicate *)

(** X11. With a regular expression for [take_cols], a header row that
    holds, anywhere from column 0 on, a value that is not a string (an
    empty cell, a number) ends the scan with a [TypeError]: the
    expression is matched against every cell of the row. *)
Theorem regex_needs_string_headers :
  forall (E : env) (pat : string) (tc : Cell -> result bool)
         (tcols : Value -> result bool) (s : state) (row : Row)
         (c : nat) (v : Value),
    make_test_cols E (PStr pat) = Ok tcols ->
    (forall t, exists b, re_match E pat t = Ok b) ->
    head_read s = false ->
    locate tc s row = Ok (c, true) ->
    cell_value row c = Ok v -> v <> VNone ->
    (exists cell, cell ∈ row /\ is_str (value cell) = false) ->
    scan_row tc tcols s row = Raise TypeError.
Proof.
  intros E pat tc tcols s row c v Ht Hre Hh Hl Hc Hv Hbad.
  inversion Ht; subst tcols; clear Ht.
  unfold scan_row. rewrite Hl. simpl. rewrite Hc. simpl.
  destruct (decide (v <> VNone)); [|contradiction]. rewrite Hh.
  assert (Hidx : forall i, header_idxs
             (fun col => match col with
                         | VStr t => re_match E pat t
                         | _ => Raise TypeError
                         end) c i row = Raise TypeError).
  { destruct Hbad as (cell & Hin & Hns). clear Hc Hl.
    induction row as [|cl row IH]; intros i;
      [now apply elem_of_nil in Hin|]. simpl.
    destruct (value cl) as [|t|z|b0|r] eqn:Hcl; try reflexivity.
    destruct (Hre t) as [b ->]. simpl.
    apply elem_of_cons in Hin as [->|Hin]; [rewrite Hcl in Hns; discriminate|].
    now rewrite (IH Hin). }
  now rewrite Hidx.
Qed.

Lemma regex_needs_string_headers_witness :
  scan_row (fun _ => Ok true)
    (fun col => match col with
                | VStr t => Ok (String.prefix "N" t)
                | _ => Raise TypeError
                end)
    (init PNone) (as_row [VStr "Name"; VInt 2024])
  = Raise TypeError.
Proof.
  apply (regex_needs_string_headers
           {| fs := ∅; re_match := fun pat t => Ok (String.prefix pat t) |}
           "N" (fun _ => Ok true) _ (init PNone)
           (as_row [VStr "Name"; VInt 2024]) 0 (VStr "Name"));
    try reflexivity.
  - intros t. now eexists.
  - discriminate.
  - exists {| value := VInt 2024 |}. split; [|reflexivity].
    apply list_elem_of_further, list_elem_of_here.
Defined.

(** *** No predicates: the first row is the header *)

Lemma header_idxs_all (row : Row) :
  forall i, header_idxs (fun _ => Ok true) 0 i row = Ok (seq i (length row)).
Proof.
  induction row as [|cell row IH]; intros i; simpl; [reflexivity|].
  now rewrite IH.
Qed.

Lemma select_all_from (row : Row) :
  forall pre : Row,
    select (seq (length pre) (length row)) (pre ++ row) = Ok (map value row).
Proof.
  unfold select. induction row as [|cell row IH]; intros pre; simpl;
    [reflexivity|].
  assert (Hc : cell_value (pre ++ cell :: row) (length pre) = Ok (value cell)).
  { unfold cell_value. now rewrite list_lookup_middle. }
  rewrite Hc. simpl. specialize (IH (pre ++ [cell])).
  rewrite length_app, <- app_assoc in IH. simpl in IH.
  rewrite Nat.add_1_r in IH. now rewrite IH.
Qed.

Lemma select_all (row : Row) :
  select (seq 0 (length row)) row = Ok (map value row).
Proof. exact (select_all_from row []). Qed.

(** X18. With neither [zero_cell] nor [take_cols], the first row
    yielded is the header, provided its first cell is not empty: the
    anchor is column 0, every column of that row is kept, and the header
    is that row, normalised. *)
Theorem first_row_is_header_without_predicates :
  forall (hrow : Row) (v : Value) (hdr : list Value),
    cell_value hrow 0 = Ok v -> v <> VNone ->
    mapM normalize (map value hrow) = Ok hdr ->
    passes (fun _ => Ok true) (fun _ => Ok true) (init PNone) [hrow]
    = Some {| read_immediately := true; head_read := true; i_row := 1;
              i_col := 0; idxs := seq 0 (length hrow); rows := [hdr] |}.
Proof.
  intros hrow v hdr Hc Hv Hn. simpl. unfold scan_row. simpl.
  rewrite Hc. simpl. destruct (decide (v <> VNone)); [|contradiction].
  rewrite header_idxs_all. simpl. rewrite select_all. simpl.
  now rewrite Hn.
Qed.

Lemma first_row_is_header_without_predicates_witness :
  passes (fun _ => Ok true) (fun _ => Ok true) (init PNone)
         [as_row [VStr " Name"; VStr "Age"]]
  = Some {| read_immediately := true; head_read := true; i_row := 1;
            i_col := 0; idxs := [0; 1]; rows := [[VStr "Name"; VStr "Age"]] |}.
Proof.
  apply (first_row_is_header_without_predicates
           (as_row [VStr " Name"; VStr "Age"]) (VStr " Name")
           [VStr "Name"; VStr "Age"]).
  - reflexivity.
  - discriminate.
  - reflexivity.
Defined.

End ScanFacts.

(** ** Arguments, sheet names and the footer of [load_excel] *)

Module LoadEdges.
Import Load LoadFacts ScanAux.

(** X12. The footer check fires in two cases only: nothing was
    collected and the count is not negative, or one row was collected and
    the count is positive.  In every other case it lets the call go on. *)
Theorem footer_guard_fires_iff :
  forall (skip_foot : option Z) (rs : list (list Value)),
    (footer_guard skip_foot rs = Ok ()
     \/ footer_guard skip_foot rs = Raise (ValueError LoadSkipFootTooLarge))
    /\ (footer_guard skip_foot rs = Raise (ValueError LoadSkipFootTooLarge)
        <-> exists n, skip_foot = Some n
                      /\ ((rs = [] /\ (0 <= n)%Z)
                          \/ (length rs = 1 /\ (1 <= n)%Z))).
Proof.
  intros [n|] rs; unfold footer_guard.
  - destruct (decide _) as [[Hl Hn]|Hno].
    + split; [now right|]. split; [|reflexivity]. intros _.
      exists n. split; [reflexivity|].
      destruct rs as [|r [|r' rs]]; simpl in *; [left|right|lia];
        split; trivial; lia.
    + split; [now left|]. split; [discriminate|].
      intros (m & [= <-] & [[-> Hm]|[Hl Hm]]); destruct Hno; simpl;
        split; lia.
  - split; [now left|]. split; [discriminate|].
    intros (m & Hm & _). discriminate.
Qed.

(** X13. Two edge cases of the footer count: with 0 no row at all is
    written, the header included; with a negative count [-n] the last [n]
    collected rows are left out. *)
Theorem written_zero_and_negative :
  forall (rs : list (list Value)) (n : nat),
    written (Some 0%Z) rs = []
    /\ written (Some (- Z.of_nat (S n))%Z) rs = take (length rs - S n) rs.
Proof.
  intros rs n. split; [reflexivity|].
  unfold written, slice_to.
  destruct (Z.ltb_spec (- Z.of_nat (S n)) 0); [|lia].
  f_equal. lia.
Qed.

(** X14. Whatever the footer count, the rows written are a prefix of
    the rows collected: none is changed, reordered or added. *)
Theorem written_is_prefix :
  forall (skip_foot : option Z) (rs : list (list Value)),
    written skip_foot rs `prefix_of` rs.
Proof.
  intros [n|] rs; unfold written, slice_to; [|reflexivity].
  destruct (n <? 0)%Z; eexists; symmetry; apply take_drop.
Qed.

(** X16. A malformed [zero_cell] or [take_cols] is reported before the
    document is opened: for a stream source the call ends in the usage
    error whatever the file system holds and whatever the sheet selector,
    [zero_cell] being looked at first. *)
Theorem bad_predicates_fail_before_opening :
  forall (E : env) (data : string) (sheet : sheet_arg)
         (zero_cell take_cols : pred_arg) (skip_rows skip_foot : option Z),
    load_excel E (FBytesIO data) sheet PBad skip_rows skip_foot take_cols
      = Raise (ValueError LoadBadZeroCell)
    /\ load_excel E (FBytesIO data) sheet zero_cell skip_rows skip_foot PBad
      = match zero_cell with
        | PBad => Raise (ValueError LoadBadZeroCell)
        | _ => Raise (ValueError LoadBadTakeCols)
        end.
Proof.
  intros E data sheet zero_cell take_cols skip_rows skip_foot.
  split; [reflexivity|]. now destruct zero_cell.
Qed.

(** X17. A stream source is never read: what is opened is the file
    name ["<file-like>"].  Where no such file can be opened, a call with
    well-formed predicates ends in the error of line 111, a
    [RuntimeError] raised from the failure of the library. *)
Theorem stream_source_opens_a_file_name :
  forall (E : env) (data : string) (sheet : sheet_arg)
         (zero_cell take_cols : pred_arg) (skip_rows skip_foot : option Z),
    zero_cell <> PBad -> take_cols <> PBad ->
    (forall wb, fs E !! "<file-like>" <> Some (Readable wb)) ->
    load_excel E (FBytesIO data) sheet zero_cell skip_rows skip_foot take_cols
      = Raise (RuntimeError LoadOpenFailed LibraryError)
    /\ load_excel E (FBufferedReader data) sheet zero_cell skip_rows
                  skip_foot take_cols
      = Raise (RuntimeError LoadOpenFailed LibraryError).
Proof.
  intros E data sheet zero_cell take_cols skip_rows skip_foot Hz Ht Hfs.
  assert (Ho : open_book E "<file-like>"
               = Raise (RuntimeError LoadOpenFailed LibraryError)).
  { unfold open_book. destruct (fs E !! "<file-like>") as [[wb|]|] eqn:Hf;
      trivial. now destruct (Hfs wb). }
  unfold load_excel. simpl.
  destruct zero_cell; try contradiction; simpl;
    destruct take_cols; try contradiction; simpl; now rewrite Ho.
Qed.

Lemma stream_source_opens_a_file_name_witness :
  load_excel {| fs := {[ "data.xlsx" := Unreadable ]};
                re_match := fun _ _ => Ok true |}
             (FBytesIO "PK") (SInt 0) (PStr "Name") None None PNone
  = Raise (RuntimeError LoadOpenFailed LibraryError).
Proof.
  apply (stream_source_opens_a_file_name
           {| fs := {[ "data.xlsx" := Unreadable ]};
              re_match := fun _ _ => Ok true |}
           "PK" (SInt 0) (PStr "Name") PNone None None).
  - discriminate.
  - discriminate.
  - intros wb. vm_compute. discriminate.
Defined.

End LoadEdges.

(** ** More on [save_excel] *)

Module SaveEdges.
Import Save.

Lemma acquire_event (w : world) (p : string) (wb : Workbook) (ev : event) :
  acquire w p = Ok (wb, ev) ->
  (ev = EvNew /\ wb = [] /\ files w !! p = None)
  \/ (ev = EvOpen p /\ files w !! p = Some (Book wb)).
Proof.
  unfold acquire. destruct (files w !! p) as [[wb'|]|]; try discriminate.
  - intros [= <- <-]. now right.
  - intros [= <- <-]. now left.
Qed.

Lemma del_sheet_absent (name : string) (wb : Workbook) :
  name ∉ sheetnames wb -> del_sheet name wb = wb.
Proof.
  unfold del_sheet, sheetnames. induction wb as [|sh wb IH];
    [reflexivity|].
  intros H. simpl in H. apply not_elem_of_cons in H as [Hne Hout].
  rewrite (filter_cons (fun s => title s <> name) sh wb).
  destruct (decide (title sh <> name)) as [_|Heq]; [|destruct Heq; congruence].
  f_equal. now apply IH.
Qed.

Lemma resolve_conflict_proceeds (name policy : string) (wb wb1 : Workbook)
    (evs : list event) :
  resolve_conflict name policy wb = inl (wb1, evs) ->
  wb1 = del_sheet name wb
  /\ (evs = [] \/ evs = [EvDelete name])
  /\ (name ∈ sheetnames wb -> policy = "overwrite").
Proof.
  unfold resolve_conflict.
  destruct (decide (name ∈ sheetnames wb)) as [Hin|Hout].
  - destruct (decide _); [discriminate|].
    destruct (decide (policy = "overwrite")); [|now destruct (decide _)].
    intros [= <- <-]. auto.
  - intros [= <- <-]. split; [|split; [now left|contradiction]].
    symmetry. now apply del_sheet_absent.
Qed.

(** X19. [save_excel] returns the table it was given or raises, and
    when it raises the file system is as it was: no file is written on a
    failed call. *)
Theorem save_excel_table_or_untouched_disk :
  forall (w : world) (path : path_arg) (df : DataFrame)
         (sheet_name : option string) (if_sheet_exists : string),
    match ret (save_excel w path df sheet_name if_sheet_exists) with
    | Ok df' => df' = df
    | Raise _ =>
        disk (save_excel w path df sheet_name if_sheet_exists) = files w
    end.
Proof.
  intros w path df sheet_name if_sheet_exists. unfold save_excel.
  destruct (check_destination path) as [p|]; [|reflexivity].
  destruct (acquire w p) as [[wb ev]|]; [|reflexivity].
  destruct (resolve_conflict _ _ wb) as [[wb1 evs]|[[]|]]; try reflexivity.
  now destruct (decide _).
Qed.

(** X21. A document that was acquired is released: the trace of a call
    is empty (the destination was refused, or could not be opened) or
    starts with the acquisition and ends with the closing of the
    document, on the error paths as well. *)
Theorem save_excel_closes_what_it_opens :
  forall (w : world) (path : path_arg) (df : DataFrame)
         (sheet_name : option string) (if_sheet_exists : string),
    let tr := trace (save_excel w path df sheet_name if_sheet_exists) in
    tr = []
    \/ (exists ev mid, tr = ev :: mid ++ [EvClose]
                       /\ (ev = EvNew \/ exists p, ev = EvOpen p)
                       /\ EvClose ∉ mid).
Proof.
  intros w path df sheet_name if_sheet_exists. simpl. unfold save_excel.
  destruct (check_destination path) as [p|]; [|now left].
  destruct (acquire w p) as [[wb ev]|] eqn:Ha; [|now left].
  assert (Hev : ev = EvNew \/ exists p', ev = EvOpen p').
  { destruct (acquire_event w p wb ev Ha) as [[-> _]|[-> _]]; eauto. }
  right.
  destruct (resolve_conflict _ _ wb) as [[wb1 evs]|[[]|]] eqn:Hr;
    try (exists ev, []; simpl; repeat split; trivial; apply not_elem_of_nil).
  apply resolve_conflict_proceeds in Hr as (_ & Hevs & _).
  set (rs := append_rows false (to_dicts df)).
  exists ev, (evs ++ EvCreate (target_name sheet_name) :: map EvAppend rs
              ++ [EvSave p]).
  split; [|split; [exact Hev|]].
  - destruct (decide _); simpl; rewrite <- !app_assoc; simpl;
      now rewrite <- !app_assoc.
  - rewrite elem_of_app, elem_of_cons, elem_of_app, list_elem_of_singleton.
    intros [H|[H|[H|H]]]; try discriminate.
    + destruct Hevs as [->| ->]; [now apply elem_of_nil in H|].
      apply list_elem_of_singleton in H. discriminate.
    + apply list_elem_of_fmap in H as (r & Hr & _). discriminate.
Qed.

(** X22. When the sheet name is taken and the policy is neither
    ["overwrite"] nor ["skip"], the call raises (the [AssertionError]
    naming the sheet for ["assert"], the usage error of line 215 for any
    other word) and the document is opened and closed, nothing more: no
    sheet is deleted or created and nothing is saved. *)
Theorem save_excel_collision_raises :
  forall (w : world) (path : path_arg) (p : string) (wb : Workbook)
         (df : DataFrame) (sheet_name : option string) (policy : string),
    check_destination path = Ok p ->
    files w !! p = Some (Book wb) ->
    target_name sheet_name ∈ sheetnames wb ->
    policy <> "overwrite" -> policy <> "skip" ->
    save_excel w path df sheet_name policy
    = {| ret := Raise (if decide (policy = "assert")
                       then AssertionError (target_name sheet_name)
                       else ValueError SaveBadPolicy);
         disk := files w; trace := [EvOpen p; EvClose] |}.
Proof.
  intros w path p wb df sheet_name policy Hd Hf Hin Ho Hs.
  unfold save_excel. rewrite Hd. unfold acquire. rewrite Hf.
  unfold resolve_conflict.
  destruct (decide (target_name sheet_name ∈ sheetnames wb)); [|contradiction].
  destruct (decide (policy ∉ ["overwrite"; "assert"; "skip"])) as [Hbad|Hok].
  - destruct (decide (policy = "assert")) as [->|]; [|reflexivity].
    destruct Hbad. apply list_elem_of_further, list_elem_of_here.
  - destruct (decide (policy = "overwrite")); [contradiction|].
    destruct (decide (policy = "assert")); [reflexivity|].
    destruct Hok. rewrite !not_elem_of_cons. repeat split; trivial.
    apply not_elem_of_nil.
Qed.

Lemma save_excel_collision_raises_witness :
  let w := {| files := {[ "book.xlsm" :=
                Book [{| title := "Data"; cells := [[VStr "a"]] |}] ]};
              locked := ∅ |} in
  let df := {| columns := ["a"]; records := [[VInt 1]] |} in
  save_excel w (DStr "book.xlsm") df (Some "Data") "assert"
  = {| ret := Raise (AssertionError "Data"); disk := files w;
       trace := [EvOpen "book.xlsm"; EvClose] |}.
Proof.
  intros w df.
  apply (save_excel_collision_raises w (DStr "book.xlsm") "book.xlsm"
           [{| title := "Data"; cells := [[VStr "a"]] |}] df (Some "Data")
           "assert"); try reflexivity; try discriminate.
  apply list_elem_of_here.
Defined.

(** X23. The policy is looked at only when the sheet name is taken:
    for a destination that has no sheet of that name (a new file, or a
    workbook without it) any two policy words, valid or not, give the
    same call. *)
Theorem save_excel_policy_matters_on_collision_only :
  forall (w : world) (path : path_arg) (df : DataFrame)
         (sheet_name : option string) (policy policy' : string),
    (forall p wb, check_destination path = Ok p ->
                  files w !! p = Some (Book wb) ->
                  target_name sheet_name ∉ sheetnames wb) ->
    save_excel w path df sheet_name policy
    = save_excel w path df sheet_name policy'.
Proof.
  intros w path df sheet_name policy policy' Hfree. unfold save_excel.
  destruct (check_destination path) as [p|] eqn:Hd; [|reflexivity].
  destruct (acquire w p) as [[wb ev]|] eqn:Ha; [|reflexivity].
  assert (Hout : target_name sheet_name ∉ sheetnames wb).
  { destruct (acquire_event w p wb ev Ha) as [(_ & -> & _)|[_ Hf]].
    - apply not_elem_of_nil.
    - exact (Hfree p wb eq_refl Hf). }
  unfold resolve_conflict.
  destruct (decide (target_name sheet_name ∈ sheetnames wb));
    [contradiction|reflexivity].
Qed.

Lemma save_excel_policy_matters_on_collision_only_witness :
  let w := {| files := ∅; locked := ∅ |} in
  let df := {| columns := ["a"]; records := [[VInt 1]] |} in
  save_excel w (DStr "new.xlsm") df None "no such policy"
  = save_excel w (DStr "new.xlsm") df None "overwrite".
Proof.
  intros w df.
  apply (save_excel_policy_matters_on_collision_only w (DStr "new.xlsm") df
           None "no such policy" "overwrite").
  intros p wb [= <-]. vm_compute. discriminate.
Defined.

Lemma append_rows_true (dicts : list (list (string * Value))) :
  append_rows true dicts = map (map snd) dicts.
Proof. induction dicts as [|d ds IH]; simpl; [reflexivity|now rewrite IH]. Qed.

Lemma to_dicts_values (cols : list string) (recs : list (list Value)) :
  Forall (fun r => length r = length cols) recs ->
  map (map snd) (map (fun r => zip cols r) recs) = recs.
Proof.
  induction 1 as [|r recs Hr _ IH]; simpl; [reflexivity|].
  rewrite IH. f_equal. apply (snd_zip cols r). lia.
Qed.

(** X25. The rows put into the sheet, for a table whose records are as
    long as its list of columns: nothing for a table without records (no
    header either); otherwise the column names, then the records as they
    are. *)
Theorem append_rows_header_then_records :
  forall df : DataFrame,
    Forall (fun r => length r = length (columns df)) (records df) ->
    append_rows false (to_dicts df)
    = match records df with
      | [] => []
      | _ :: _ => map VStr (columns df) :: records df
      end.
Proof.
  intros [cols recs]. unfold to_dicts. simpl. intros H.
  destruct recs as [|r recs]; [reflexivity|]. simpl.
  inversion H as [|? ? Hr Hrecs]; subst.
  rewrite append_rows_true, (to_dicts_values cols recs Hrecs).
  f_equal; [|f_equal; apply (snd_zip cols r); lia].
  rewrite <- (fst_zip cols r) at 2 by lia.
  now rewrite map_map.
Qed.

Lemma append_rows_header_then_records_witness :
  append_rows false
    (to_dicts {| columns := ["a"; "b"];
                 records := [[VInt 1; VStr "x"]; [VInt 2; VNone]] |})
  = [[VStr "a"; VStr "b"]; [VInt 1; VStr "x"]; [VInt 2; VNone]].
Proof.
  apply (append_rows_header_then_records
           {| columns := ["a"; "b"];
              records := [[VInt 1; VStr "x"]; [VInt 2; VNone]] |}).
  repeat constructor.
Defined.

End SaveEdges.

(** ** What the scan collects *)

Module TableFacts.
Import Load LoadFacts ScanAux ScanFacts.

Lemma scan_row_data (tc : Cell -> result bool)
    (tcols : Value -> result bool) (s : state) (row : Row) (v : Value)
    (data : list Value) :
  read_immediately s = true -> head_read s = true ->
  cell_value row (i_col s) = Ok v -> v <> VNone ->
  select (idxs s) row = Ok data ->
  scan_row tc tcols s row
  = Ok (Continue {| read_immediately := true; head_read := true;
                    i_row := S (i_row s); i_col := i_col s;
                    idxs := idxs s; rows := rows s ++ [data] |}).
Proof.
  intros Hr Hh Hc Hv Hs. unfold scan_row.
  rewrite (locate_reading tc s row Hr). cbn [bind negb].
  rewrite Hc. cbn [bind].
  destruct (decide (v <> VNone)); [|contradiction].
  rewrite Hh. cbn [bind]. rewrite Hs. reflexivity.
Qed.

Lemma scan_row_header (tc : Cell -> result bool)
    (tcols : Value -> result bool) (s : state) (row : Row) (c : nat)
    (v : Value) (ix : list nat) (data hdr : list Value) :
  head_read s = false ->
  locate tc s row = Ok (c, true) ->
  cell_value row c = Ok v -> v <> VNone ->
  header_idxs tcols c 0 row = Ok ix ->
  select ix row = Ok data ->
  mapM normalize data = Ok hdr ->
  scan_row tc tcols s row
  = Ok (Continue {| read_immediately := true; head_read := true;
                    i_row := S (i_row s); i_col := c;
                    idxs := ix; rows := rows s ++ [hdr] |}).
Proof.
  intros Hh Hl Hc Hv Hi Hs Hn. unfold scan_row.
  rewrite Hl. cbn [bind negb]. rewrite Hc. cbn [bind].
  destruct (decide (v <> VNone)); [|contradiction].
  rewrite Hh. rewrite Hi. cbn [bind]. rewrite Hs. cbn [bind].
  rewrite Hn. reflexivity.
Qed.

Lemma passes_collected (tc : Cell -> result bool)
    (tcols : Value -> result bool) (pre : list Row) :
  forall (s s' : state) (seen : list Row),
    collected s seen ->
    passes tc tcols s pre = Some s' ->
    collected s' (seen ++ pre).
Proof.
  induction pre as [|row pre IH]; intros s s' seen Hc H; simpl in H.
  - inversion H; subst. now rewrite app_nil_r.
  - destruct (scan_row tc tcols s row) as [[s1|s1]|] eqn:Hrow;
      try discriminate.
    pose proof (scan_row_collected tc tcols s s1 seen row Hc Hrow) as Hc1.
    specialize (IH s1 s' (seen ++ [row]) Hc1 H).
    now rewrite <- app_assoc in IH.
Qed.

(** Nothing is collected as long as no header is read. *)
Lemma passes_no_header (tc : Cell -> result bool)
    (tcols : Value -> result bool) (zero_cell : pred_arg)
    (pre : list Row) (s : state) :
  passes tc tcols (init zero_cell) pre = Some s ->
  head_read s = false -> rows s = [].
Proof.
  intros H Hh.
  assert (Hinit : collected (init zero_cell) []) by (left; now split).
  destruct (passes_collected tc tcols pre _ _ _ Hinit H)
    as [[_ Hr]|(Hh' & _)]; [exact Hr|congruence].
Qed.

(** The rows after the header, as long as their anchor cell is not
    empty, are taken over one by one. *)
Lemma passes_data_rows (tc : Cell -> result bool)
    (tcols : Value -> result bool) (ds : list Row) :
  forall (s : state) (body : list (list Value)),
    read_immediately s = true -> head_read s = true ->
    Forall (fun r => exists d, cell_value r (i_col s) = Ok d /\ d <> VNone)
           ds ->
    mapM (select (idxs s)) ds = Ok body ->
    exists s', passes tc tcols s ds = Some s'
               /\ rows s' = rows s ++ body
               /\ read_immediately s' = true /\ head_read s' = true
               /\ i_col s' = i_col s /\ idxs s' = idxs s.
Proof.
  induction ds as [|r ds IH]; intros s body Hr Hh Hall Hm.
  - simpl in Hm. inversion Hm; subst. exists s. simpl.
    now rewrite app_nil_r.
  - inversion Hall as [|? ? (d & Hd & Hnd) Hds]; subst.
    cbn [mapM] in Hm.
    destruct (select (idxs s) r) as [data|] eqn:Hsel; cbn [bind] in Hm;
      [|discriminate].
    destruct (mapM (select (idxs s)) ds) as [body'|] eqn:Hm';
      cbn [bind] in Hm; [|discriminate].
    inversion Hm; subst body; clear Hm.
    cbn [passes].
    rewrite (scan_row_data tc tcols s r d data Hr Hh Hd Hnd Hsel).
    destruct (IH {| read_immediately := true; head_read := true;
                    i_row := S (i_row s); i_col := i_col s;
                    idxs := idxs s; rows := rows s ++ [data] |} body')
      as (s' & Hp & Hrows & Hr' & Hh' & Hc' & Hi'); trivial.
    exists s'. split; [exact Hp|]. cbn [rows i_col idxs] in *.
    rewrite Hrows, <- app_assoc. now repeat split.
Qed.

(** C9. What [collect] returns for a sheet, written out.  Let the rows
    yielded be [pre ++ hrow :: ds ++ tail] where the rows [pre] are
    passed over with no header read, [hrow] is the header row (its anchor
    cell is not empty, the column predicate selects the indices [ix]),
    every row of [ds] has a non-empty anchor cell, and [tail] is empty or
    starts with a row whose anchor cell is empty.  Then the result is the
    header followed by the data rows, where the header is [normalize]
    applied to the fields selected from [hrow] and each data row is the
    list of the values found at the indices [ix], as they were read:
    no white space is collapsed or trimmed in them. *)
Theorem header_normalized_data_rows_verbatim :
  forall (book : ReadOnlyWorkbook) (sheet : sheet_arg) (sh : Worksheet)
         (tc : Cell -> result bool) (tcols : Value -> result bool)
         (zero_cell : pred_arg) (skip_rows : option Z)
         (pre ds tail : list Row) (hrow : Row) (s : state) (c : nat)
         (v : Value) (ix : list nat) (raw hdr : list Value)
         (body : list (list Value)),
    resolve_sheet book sheet = Ok sh ->
    iter_rows sh (min_row skip_rows) = pre ++ hrow :: ds ++ tail ->
    passes tc tcols (init zero_cell) pre = Some s ->
    head_read s = false ->
    locate tc s hrow = Ok (c, true) ->
    cell_value hrow c = Ok v -> v <> VNone ->
    header_idxs tcols c 0 hrow = Ok ix ->
    select ix hrow = Ok raw ->
    mapM normalize raw = Ok hdr ->
    Forall (fun r => exists d, cell_value r c = Ok d /\ d <> VNone) ds ->
    mapM (select ix) ds = Ok body ->
    (tail = []
     \/ exists stop post, tail = stop :: post
                          /\ cell_value stop c = Ok VNone) ->
    collect book sheet tc tcols zero_cell skip_rows = Ok (hdr :: body).
Proof.
  intros book sheet sh tc tcols zero_cell skip_rows pre ds tail hrow s c v
         ix raw hdr body Hsh Hrows Hpre Hh Hl Hc Hv Hix Hraw Hhdr Hds Hbody
         Htail.
  pose proof (passes_no_header tc tcols zero_cell pre s Hpre Hh) as Hempty.
  unfold collect. rewrite Hsh. cbn [bind]. rewrite Hrows.
  rewrite (scan_passes tc tcols pre _ _ s Hpre). cbn [scan].
  rewrite (scan_row_header tc tcols s hrow c v ix raw hdr
             Hh Hl Hc Hv Hix Hraw Hhdr).
  cbn [bind]. rewrite Hempty. cbn [app].
  destruct (passes_data_rows tc tcols ds
              {| read_immediately := true; head_read := true;
                 i_row := S (i_row s); i_col := c; idxs := ix;
                 rows := [hdr] |} body)
    as (s' & Hp & Hrs & Hr' & Hh' & Hc' & Hi'); trivial.
  rewrite (scan_passes tc tcols ds tail _ s' Hp).
  cbn [rows i_col] in Hrs, Hc'.
  destruct Htail as [->|(stop & post & -> & Hstop)].
  - cbn [scan bind]. now rewrite Hrs.
  - rewrite <- Hc' in Hstop.
    destruct (scan_row_empty_anchor tc tcols s' stop (i_col s')
                (locate_reading tc s' stop Hr') Hstop) as (s2 & Hb & Hrs2).
    cbn [scan]. rewrite Hb. cbn [bind]. now rewrite Hrs2, Hrs.
Qed.

Lemma header_normalized_data_rows_verbatim_witness :
  let pre := [as_row [VStr "Report  2024"]] in
  let hrow := as_row [VStr " Col   Name "; VStr "Age
"] in
  let ds := [as_row [VStr " a   b "; VInt 30];
             as_row [VStr "c  "; VStr "  4  0 "]] in
  let tail := [as_row [VNone; VStr "total"];
               as_row [VStr "below"; VStr "the table"]] in
  let sh := {| ws_title := "S";
               iter_rows := fun _ => pre ++ hrow :: ds ++ tail |} in
  let tc := fun cl => Ok (bool_decide (value cl = VStr " Col   Name ")) in
  collect {| worksheets := [sh] |} (SInt 0) tc (fun _ => Ok true)
          (PStr " Col   Name ") None
  = Ok [[VStr "Col Name"; VStr "Age"];
        [VStr " a   b "; VInt 30];
        [VStr "c  "; VStr "  4  0 "]].
Proof.
  intros pre hrow ds tail sh tc.
  apply (header_normalized_data_rows_verbatim
           {| worksheets := [sh] |} (SInt 0) sh tc (fun _ => Ok true)
           (PStr " Col   Name ") None pre ds tail hrow
           {| read_immediately := false; head_read := false; i_row := 1;
              i_col := 0; idxs := []; rows := [] |}
           0 (VStr " Col   Name ") [0; 1]
           [VStr " Col   Name "; VStr "Age
"]
           [VStr "Col Name"; VStr "Age"]
           [[VStr " a   b "; VInt 30]; [VStr "c  "; VStr "  4  0 "]]);
    try reflexivity.
  - discriminate.
  - repeat constructor; eexists; (split; [reflexivity|discriminate]).
  - right. eexists _, _. split; reflexivity.
Defined.

Lemma select_member (row : Row) (ix : list nat) :
  forall (data : list Value) (i : nat) (cell : Cell),
    select ix row = Ok data -> i ∈ ix -> row !! i = Some cell ->
    value cell ∈ data.
Proof.
  unfold select. induction ix as [|j ix IH]; intros data i cell Hs Hin Hc.
  - now apply elem_of_nil in Hin.
  - cbn [mapM] in Hs.
    destruct (cell_value row j) as [y|] eqn:Hj; cbn [bind] in Hs;
      [|discriminate].
    destruct (mapM (cell_value row) ix) as [ys|] eqn:Hm; cbn [bind] in Hs;
      [|discriminate].
    inversion Hs; subst data; clear Hs.
    apply elem_of_cons in Hin as [->|Hin].
    + unfold cell_value in Hj. rewrite Hc in Hj. inversion Hj; subst.
      apply list_elem_of_here.
    + apply list_elem_of_further. exact (IH ys i cell eq_refl Hin Hc).
Qed.

(** The claim C10 as it is worded fails where an index selected from the
    header row lies beyond the end of that row, which happens when the
    anchor is right of column 0: for the header row [junk, Name, 5] with
    the anchor at [Name] and no restriction on the columns, the indices
    selected are 1, 2, 3; the row holds the number 5 at the selected index
    2; and reading the selected fields (line 148) ends in an [IndexError]
    before the normalisation is reached, not in a [TypeError]. *)
Lemma header_non_string_counterexample :
  let hrow := as_row [VStr "junk"; VStr "Name"; VInt 5] in
  let sh := {| ws_title := "S"; iter_rows := fun _ => [hrow] |} in
  let tc := fun cl => Ok (bool_decide (value cl = VStr "Name")) in
  locate tc (init (PStr "Name")) hrow = Ok (1, true)
  /\ header_idxs (fun _ => Ok true) 1 0 hrow = Ok [1; 2; 3]
  /\ 2 ∈ [1; 2; 3]
  /\ cell_value hrow 2 = Ok (VInt 5)
  /\ is_str (VInt 5) = false
  /\ collect {| worksheets := [sh] |} (SInt 0) tc (fun _ => Ok true)
             (PStr "Name") None
     = Raise IndexError
  /\ collect {| worksheets := [sh] |} (SInt 0) tc (fun _ => Ok true)
             (PStr "Name") None
     <> Raise TypeError.
Proof.
  intros hrow sh tc.
  split; [reflexivity|]. split; [reflexivity|].
  split; [apply list_elem_of_further, list_elem_of_here|].
  split; [reflexivity|]. split; [reflexivity|].
  split; [reflexivity|discriminate].
Qed.

(** C10 (amended). Let the scan have gone through the rows [pre] without
    reading a header, and let the next row be the header row: the anchor
    column [c] is known and its cell is not empty, and the column
    predicate selects the indices [ix].  If every index of [ix] lies
    inside the header row and the row holds, at one of them, a value that
    is not a string, the scan ends in a [TypeError], raised by the
    normalisation of line 151 and wrapped by nothing: it is what the
    [with] block raises. *)
Theorem header_non_string_in_range_TypeError :
  forall (book : ReadOnlyWorkbook) (sheet : sheet_arg) (sh : Worksheet)
         (tc : Cell -> result bool) (tcols : Value -> result bool)
         (zero_cell : pred_arg) (skip_rows : option Z)
         (pre post : list Row) (row : Row) (s : state) (c : nat)
         (v : Value) (ix : list nat) (i : nat) (cell : Cell),
    resolve_sheet book sheet = Ok sh ->
    iter_rows sh (min_row skip_rows) = pre ++ row :: post ->
    passes tc tcols (init zero_cell) pre = Some s ->
    head_read s = false ->
    locate tc s row = Ok (c, true) ->
    cell_value row c = Ok v -> v <> VNone ->
    header_idxs tcols c 0 row = Ok ix ->
    Forall (fun j => j < length row) ix ->
    i ∈ ix -> row !! i = Some cell -> is_str (value cell) = false ->
    collect book sheet tc tcols zero_cell skip_rows = Raise TypeError.
Proof.
  intros book sheet sh tc tcols zero_cell skip_rows pre post row s c v ix
         i cell Hsh Hrows Hpre Hhead Hloc Hval Hv Hix Hin_range Hi Hcell Hns.
  destruct (select_in_range row ix Hin_range) as [data Hsel].
  assert (Hbad : exists d, d ∈ data /\ is_str d = false).
  { exists (value cell). split; [|exact Hns].
    exact (select_member row ix data i cell Hsel Hi Hcell). }
  unfold collect. rewrite Hsh. cbn [bind]. rewrite Hrows.
  rewrite (scan_passes tc tcols pre _ _ s Hpre). cbn [scan].
  unfold scan_row. rewrite Hloc. cbn [bind negb]. rewrite Hval. cbn [bind].
  destruct (decide (v <> VNone)); [|contradiction].
  rewrite Hhead, Hix. cbn [bind]. rewrite Hsel. cbn [bind].
  now rewrite (mapM_normalize_non_str data Hbad).
Qed.

Lemma header_non_string_in_range_TypeError_witness :
  let pre := [as_row [VStr "report"]] in
  let row := as_row [VStr "Name"; VNone; VInt 2024] in
  let post := [as_row [VStr "Ann"; VStr "x"; VInt 1]] in
  let sh := {| ws_title := "S"; iter_rows := fun _ => pre ++ row :: post |} in
  let tc := fun cl => Ok (bool_decide (value cl = VStr "Name")) in
  collect {| worksheets := [sh] |} (SInt 0) tc (fun _ => Ok true)
          (PStr "Name") None
  = Raise TypeError.
Proof.
  intros pre row post sh tc.
  apply (header_non_string_in_range_TypeError {| worksheets := [sh] |}
           (SInt 0) sh tc (fun _ => Ok true) (PStr "Name") None pre post row
           {| read_immediately := false; head_read := false; i_row := 1;
              i_col := 0; idxs := []; rows := [] |}
           0 (VStr "Name") [0; 1; 2] 2 {| value := VInt 2024 |});
    try reflexivity.
  - discriminate.
  - unfold row, as_row. simpl. repeat constructor.
  - apply list_elem_of_further, list_elem_of_further, list_elem_of_here.
Defined.

End TableFacts.

(** ** The check of the dependencies *)

Module StartupFacts.
Import Startup.

Lemma check_from_spec (imp : string -> imported) (deps : list string) :
  forall printed : list string,
    match check_from imp printed deps with
    | Started pr =>
        Forall (importable imp) deps /\ pr = printed ++ map (line imp) deps
    | MissingDependency pr x =>
        exists before rest,
          deps = before ++ x :: rest /\ imp x = NotImportable
          /\ Forall (importable imp) before
          /\ pr = printed ++ map (line imp) before
    | Crashed pr e =>
        exists before x rest,
          deps = before ++ x :: rest /\ imp x = Crash e
          /\ Forall (importable imp) before
          /\ pr = printed ++ map (line imp) before
    end.
Proof.
  induction deps as [|x deps IH]; intros printed; simpl.
  - split; [constructor|now rewrite app_nil_r].
  - destruct (imp x) as [repr| |e] eqn:Hx.
    + assert (Hl : line imp x = report x repr) by (unfold line; now rewrite Hx).
      assert (Hi : importable imp x) by now exists repr.
      specialize (IH (printed ++ [report x repr])).
      destruct (check_from imp (printed ++ [report x repr]) deps)
        as [pr|pr y|pr e].
      * destruct IH as [Hall ->]. split; [now constructor|].
        now rewrite Hl, <- app_assoc.
      * destruct IH as (before & rest & -> & Hy & Hall & ->).
        exists (x :: before), rest.
        split; [reflexivity|]. split; [exact Hy|].
        split; [now constructor|].
        simpl. now rewrite Hl, <- app_assoc.
      * destruct IH as (before & y & rest & -> & Hy & Hall & ->).
        exists (x :: before), y, rest.
        split; [reflexivity|]. split; [exact Hy|].
        split; [now constructor|].
        simpl. now rewrite Hl, <- app_assoc.
    + exists [], deps. repeat split; trivial.
      simpl. now rewrite app_nil_r.
    + exists [], x, deps. repeat split; trivial.
      simpl. now rewrite app_nil_r.
Qed.

(** X27. The check at import time succeeds exactly when polars, numpy,
    tqdm and openpyxl can all be imported. *)
Theorem startup_needs_all_four :
  forall imp : string -> imported,
    (exists printed, check_dependencies imp = Started printed)
    <-> Forall (importable imp) ["polars"; "numpy"; "tqdm"; "openpyxl"].
Proof.
  intros imp. unfold check_dependencies.
  change dependencies with ["polars"; "numpy"; "tqdm"; "openpyxl"].
  pose proof (check_from_spec imp ["polars"; "numpy"; "tqdm"; "openpyxl"] [])
    as H.
  destruct (check_from imp [] ["polars"; "numpy"; "tqdm"; "openpyxl"])
    as [pr|pr x|pr e].
  - split; [now intros _|]. intros _. now exists pr.
  - destruct H as (before & rest & Hd & Hx & _).
    split; [intros [? [=]]|]. intros Hall. exfalso.
    assert (Hin : x ∈ ["polars"; "numpy"; "tqdm"; "openpyxl"])
      by (rewrite Hd; apply elem_of_app; right; apply list_elem_of_here).
    rewrite Forall_forall in Hall. destruct (Hall x Hin) as [r Hr].
    congruence.
  - destruct H as (before & x & rest & Hd & Hx & _).
    split; [intros [? [=]]|]. intros Hall. exfalso.
    assert (Hin : x ∈ ["polars"; "numpy"; "tqdm"; "openpyxl"])
      by (rewrite Hd; apply elem_of_app; right; apply list_elem_of_here).
    rewrite Forall_forall in Hall. destruct (Hall x Hin) as [r Hr].
    congruence.
Qed.

(** X28. When the import fails for a missing dependency, the error
    names the first of polars, numpy, tqdm, openpyxl, in this order, that
    cannot be imported; the dependencies before it were imported and
    reported, one line each. *)
Theorem startup_names_first_missing :
  forall (imp : string -> imported) (printed : list string) (x : string),
    check_dependencies imp = MissingDependency printed x ->
    exists before rest,
      ["polars"; "numpy"; "tqdm"; "openpyxl"] = before ++ x :: rest
      /\ imp x = NotImportable
      /\ Forall (importable imp) before
      /\ printed = map (line imp) before.
Proof.
  intros imp printed x H. unfold check_dependencies in H.
  pose proof (check_from_spec imp dependencies []) as Hs.
  rewrite H in Hs. exact Hs.
Qed.

Lemma startup_names_first_missing_witness :
  let imp := fun x => if String.eqb x "polars" then Module_ "<module>"
                      else NotImportable in
  exists before rest,
    ["polars"; "numpy"; "tqdm"; "openpyxl"] = before ++ "numpy" :: rest
    /\ imp "numpy" = NotImportable
    /\ Forall (importable imp) before
    /\ ["polars________: <module>"] = map (line imp) before.
Proof.
  intros imp.
  apply (startup_names_first_missing imp ["polars________: <module>"]
           "numpy").
  reflexivity.
Defined.

End StartupFacts.
